(** * GARP shipping connector: a shallow embedding of the shipment pipeline

    The development follows the Python sources of the connector:
    - [parsers/models.py]      the dataclasses of the shipment model;
    - [parsers/xml_parser.py]  [GarpXMLParser];
    - [carriers/dhl.py]        [clean_postal_code] and [DHLClient];
    - [carriers/postnord.py]   [PostNordClient._build_booking_payload];
    - [orchestrator.py]        [ShipmentOrchestrator].

    Python values are modelled as follows.  [str] is [string] (the model is
    exact on ASCII text), [bytes] is [list byte], [float] is the binary64
    type [float] of the standard library, [int] is [Z], a [dict] with string
    keys is a [gmap] or, inside JSON values, an association list, [None] is
    [option].  Code that raises is a computation in a small monad with
    state, exceptions and a log; [exn] ranges over the subclasses of
    Python's [Exception], which is what [except Exception] catches.  INFO
    and DEBUG log records are left out, WARNING and ERROR records of the
    stateful code are kept. *)

From Stdlib Require Import ZArith String Ascii List Floats Lia Bool DecimalString.
From stdpp Require Import base option list gmap strings.

Set Warnings "-register-all,-inexact-float".

Open Scope string_scope.
Open Scope Z_scope.

(** ** Python strings *)

Definition bytes : Type := list Byte.byte.

(** [str.isspace] on an ASCII character. *)
Definition is_space (c : ascii) : bool :=
  let n := nat_of_ascii c in
  ((9 <=? n)%nat && (n <=? 13)%nat) || ((28 <=? n)%nat && (n <=? 32)%nat).

Definition is_alpha (c : ascii) : bool :=
  let n := nat_of_ascii c in
  ((65 <=? n)%nat && (n <=? 90)%nat) || ((97 <=? n)%nat && (n <=? 122)%nat).

Definition upper_char (c : ascii) : ascii :=
  let n := nat_of_ascii c in
  if ((97 <=? n)%nat && (n <=? 122)%nat) then ascii_of_nat (n - 32) else c.

Definition str_empty (s : string) : bool :=
  match s with EmptyString => true | String _ _ => false end.

Fixpoint lstrip (s : string) : string :=
  match s with
  | EmptyString => EmptyString
  | String c r => if is_space c then lstrip r else s
  end.

Fixpoint rstrip (s : string) : string :=
  match s with
  | EmptyString => EmptyString
  | String c r =>
      let r' := rstrip r in
      if is_space c && str_empty r' then EmptyString else String c r'
  end.

(** [s.strip()] *)
Definition strip (s : string) : string := rstrip (lstrip s).

(** [s.upper()] *)
Fixpoint upper (s : string) : string :=
  match s with
  | EmptyString => EmptyString
  | String c r => String (upper_char c) (upper r)
  end.

(** [s.isalpha()]: every character is a letter and there is at least one. *)
Fixpoint all_alpha (s : string) : bool :=
  match s with
  | EmptyString => true
  | String c r => is_alpha c && all_alpha r
  end.

Definition isalpha (s : string) : bool := negb (str_empty s) && all_alpha s.

(** [s[:n]] and [s[n:]] for [n >= 0]. *)
Fixpoint str_take (n : nat) (s : string) : string :=
  match n, s with
  | S k, String c r => String c (str_take k r)
  | _, _ => EmptyString
  end.

Fixpoint str_drop (n : nat) (s : string) : string :=
  match n, s with
  | S k, String _ r => str_drop k r
  | _, _ => s
  end.

(** [s.split(sep)] for a one-character separator: never an empty list. *)
Fixpoint split_on (sep : ascii) (s : string) : list string :=
  match s with
  | EmptyString => [EmptyString]
  | String c r =>
      if Ascii.eqb c sep then EmptyString :: split_on sep r
      else match split_on sep r with
           | h :: t => String c h :: t
           | [] => [String c EmptyString]
           end
  end.

(** [needle in hay] *)
Fixpoint str_in (needle hay : string) : bool :=
  String.prefix needle hay ||
  match hay with
  | EmptyString => false
  | String _ r => str_in needle r
  end.

(** [sep.join(l)] *)
Fixpoint str_join (sep : string) (l : list string) : string :=
  match l with
  | [] => EmptyString
  | [x] => x
  | x :: r => x ++ sep ++ str_join sep r
  end.

(** ** Exceptions and results *)

Inductive exn_class :=
  | RuntimeError | ValueError | AttributeError | TypeError | KeyError
  | OverflowError | FileExistsError | FileNotFoundError | HTTPError
  | JSONDecodeError | binascii_Error | ParseError | OtherError.

(** An exception: its class and [str(e)]. *)
Record exn := Exn { exn_cls : exn_class; exn_msg : string }.

Inductive result (A : Type) :=
  | Ok (a : A)
  | Raise (e : exn).
Arguments Ok {A} a.
Arguments Raise {A} e.

Definition rbind {A B} (r : result A) (k : A -> result B) : result B :=
  match r with Ok a => k a | Raise e => Raise e end.

Fixpoint rmap {A B} (f : A -> result B) (l : list A) : result (list B) :=
  match l with
  | [] => Ok []
  | x :: r => rbind (f x) (fun y => rbind (rmap f r) (fun ys => Ok (y :: ys)))
  end.

Definition no_attribute (attr : string) : exn :=
  Exn AttributeError ("'NoneType' object has no attribute '" ++ attr ++ "'").

(** ** JSON values (what [response.json()] returns and [json=] sends) *)

Inductive json :=
  | JNull
  | JBool (b : bool)
  | JInt (z : Z)
  | JFloat (f : float)
  | JStr (s : string)
  | JList (l : list json)
  | JDict (kv : list (string * json)).

Fixpoint assoc_get {A : Type} (k : string) (kv : list (string * A)) : option A :=
  match kv with
  | [] => None
  | (k', v) :: r => if String.eqb k' k then Some v else assoc_get k r
  end.

(** [d.get(k, dflt)]; only a dict has the method. *)
Definition dict_get (d : json) (k : string) (dflt : json) : result json :=
  match d with
  | JDict kv => Ok (default dflt (assoc_get k kv))
  | _ => Raise (Exn AttributeError "object has no attribute 'get'")
  end.

(** Python truth value. *)
Definition truthy (j : json) : bool :=
  match j with
  | JNull => false
  | JBool b => b
  | JInt z => negb (z =? 0)
  | JFloat f => negb (PrimFloat.eqb f 0%float)
  | JStr s => negb (str_empty s)
  | JList l => match l with [] => false | _ => true end
  | JDict kv => match kv with [] => false | _ => true end
  end.

(** [x[0]] *)
Definition index0 (j : json) : result json :=
  match j with
  | JList (x :: _) => Ok x
  | JList [] => Raise (Exn OtherError "list index out of range")
  | JStr (String c _) => Ok (JStr (String c EmptyString))
  | JStr EmptyString => Raise (Exn OtherError "string index out of range")
  | JDict _ => Raise (Exn KeyError "0")
  | _ => Raise (Exn TypeError "object is not subscriptable")
  end.

Fixpoint chars (s : string) : list json :=
  match s with
  | EmptyString => []
  | String c r => JStr (String c EmptyString) :: chars r
  end.

(** The elements a [for] loop visits. *)
Definition iter (j : json) : result (list json) :=
  match j with
  | JList l => Ok l
  | JStr s => Ok (chars s)
  | JDict kv => Ok (map (fun p => JStr (fst p)) kv)
  | _ => Raise (Exn TypeError "object is not iterable")
  end.

(** [x == s] for a string literal [s]. *)
Definition json_is_str (j : json) (s : string) : bool :=
  match j with JStr t => String.eqb t s | _ => false end.

(** [repr] of the list of keys of a dict. *)
Definition repr_keys (kv : list (string * json)) : string :=
  "[" ++ str_join ", " (map (fun p => "'" ++ fst p ++ "'") kv) ++ "]".

(** ** The shipment model ([parsers/models.py]) *)

Inductive CarrierType := DHL | POSTNORD.

Definition CarrierType_value (c : CarrierType) : string :=
  match c with DHL => "DHL" | POSTNORD => "PN" end.

(** [CarrierType(s)]: lookup by value, [ValueError] when there is none. *)
Definition CarrierType_of_value (s : string) : option CarrierType :=
  if String.eqb s "DHL" then Some DHL
  else if String.eqb s "PN" then Some POSTNORD
  else None.

Record Receiver := mkReceiver {
  rcvid : string; rname : string; address1 : string; address2 : string;
  zipcode : string; city : string; country : string; phone : string;
  email : string; contact : string; sms : string }.

Record Container := mkContainer {
  container_type : string; measure : string; copies : Z;
  package_code : string; contents : string;
  weight : float; volume : float;
  length : float; width : float; height : float }.

Record BookingInfo := mkBookingInfo {
  pickup_booking : bool; pickup_date : string }.

Record Notification := mkNotification {
  opt_id : string; message : string }.

Record ServiceInfo := mkServiceInfo {
  carrier : CarrierType; product_code : string; addon : string;
  raw_srvid : string; booking : option BookingInfo }.

Record Shipment := mkShipment {
  order_no : string; sender_name : string; reference : string;
  term_code : string;
  service : option ServiceInfo;
  receiver : option Receiver;
  containers : list Container;
  notifications : list Notification;
  delivery_instruction : string }.

(** The dataclass defaults. *)
Definition ServiceInfo_default : ServiceInfo :=
  mkServiceInfo DHL EmptyString EmptyString EmptyString None.

(** ** The libraries and collaborators the code calls

    What the repository does not define is a parameter of the model:
    [float(s)], [base64.b64decode], [str] of a compound value, the system
    clock and its formatting, the carrier's HTTP server, the printer and
    the mailer. *)

Record request := mkRequest { req_url : string; req_json : json }.

Record response := mkResponse {
  status_code : Z;
  content_type : string;         (* headers.get("Content-Type", "") *)
  content : bytes;               (* response.content *)
  text : string;                 (* response.text *)
  json_body : option json }.     (* response.json(), None when it raises *)

Inductive http_outcome :=
  | NetFail (e : exn)            (* session.post raises *)
  | Reply (r : response).

Record Env := mkEnv {
  py_float : string -> option float;
  b64decode : string -> option bytes;
  py_repr : json -> string;
  clock : nat -> float;
  strftime : float -> string;
  today_iso : float -> string;
  server : list request -> request -> http_outcome;
  printer_label : bytes -> string -> string -> result bool;
  printer_document : bytes -> string -> string -> result bool;
  send_tracking_email : string -> string -> json -> CarrierType -> string -> result bool }.

(** [int(f)] *)
Definition int_of_float (f : float) : result Z :=
  match Prim2SF f with
  | S754_zero _ => Ok 0
  | S754_finite s m e =>
      let a := if 0 <=? e then Z.shiftl (Zpos m) e else Z.shiftr (Zpos m) (- e) in
      Ok (if s then - a else a)
  | S754_infinity _ =>
      Raise (Exn OverflowError "cannot convert float infinity to integer")
  | S754_nan => Raise (Exn ValueError "cannot convert float NaN to integer")
  end.

(** [float(s)] *)
Definition float_of_str (env : Env) (s : string) : result float :=
  match py_float env s with
  | Some f => Ok f
  | None => Raise (Exn ValueError ("could not convert string to float: '" ++ s ++ "'"))
  end.

(** ** XML elements and [GarpXMLParser] ([parsers/xml_parser.py]) *)

Inductive Element :=
  | Elem (tag : string) (attrib : list (string * string))
         (etext : option string) (children : list Element).

Definition elem_tag (e : Element) : string := match e with Elem t _ _ _ => t end.
Definition elem_attrib (e : Element) := match e with Elem _ a _ _ => a end.
Definition elem_text (e : Element) := match e with Elem _ _ t _ => t end.
Definition elem_children (e : Element) := match e with Elem _ _ _ c => c end.

(** [elem.findall(tag)], [elem.find(tag)], [elem.get(key, dflt)] *)
Definition findall (tg : string) (e : Element) : list Element :=
  filter (fun c => elem_tag c = tg) (elem_children e).

Definition find (tg : string) (e : Element) : option Element :=
  head (findall tg e).

Definition elem_get (e : Element) (k dflt : string) : string :=
  default dflt (assoc_get k (elem_attrib e)).

(** [_extract_vals]: the dict comprehension keeps the last value of a key. *)
Definition _extract_vals (elem : option Element) : gmap string string :=
  match elem with
  | None => ∅
  | Some e =>
      foldl (fun m v => <[elem_get v "n" EmptyString := strip (default EmptyString (elem_text v))]> m)
            ∅ (findall "val" e)
  end.

(** [vals.get(k, dflt)] *)
Definition vals_get (vals : gmap string string) (k dflt : string) : string :=
  default dflt (vals !! k).

Definition _parse_srvid (srvid : string) : result (CarrierType * string * string) :=
  let parts := split_on ":" srvid in
  if (List.length parts <? 2)%nat then
    Raise (Exn ValueError ("Ogiltig srvid: '" ++ srvid ++ "'. " ++
                           "Förväntat format: TRANSPORTÖR:PRODUKTKOD[:TILLÄGG]"))
  else
    let carrier_str := upper (strip (nth 0 parts EmptyString)) in
    let product_code := strip (nth 1 parts EmptyString) in
    let addon := if (2 <? List.length parts)%nat then strip (nth 2 parts EmptyString)
                 else EmptyString in
    match CarrierType_of_value carrier_str with
    | Some c => Ok (c, product_code, addon)
    | None =>
        Raise (Exn ValueError ("Okänd transportör: '" ++ carrier_str ++ "' i srvid '" ++
                               srvid ++ "'. Kända: ['DHL', 'PN']"))
    end.

Definition _parse_receiver (elem : Element) : Receiver :=
  let vals := _extract_vals (Some elem) in
  {| rcvid := strip (elem_get elem "rcvid" EmptyString);
     rname := vals_get vals "name" EmptyString;
     address1 := vals_get vals "address1" EmptyString;
     address2 := vals_get vals "address2" EmptyString;
     zipcode := vals_get vals "zipcode" EmptyString;
     city := vals_get vals "city" EmptyString;
     country := vals_get vals "country" EmptyString;
     phone := vals_get vals "phone" EmptyString;
     email := vals_get vals "email" EmptyString;
     contact := vals_get vals "contact" EmptyString;
     sms := vals_get vals "sms" EmptyString |}.

Definition _parse_service (elem : option Element) : result ServiceInfo :=
  match elem with
  | None => Ok ServiceInfo_default
  | Some e =>
      let raw := strip (elem_get e "srvid" EmptyString) in
      rbind (_parse_srvid raw) (fun '(c, product, add) =>
      let bk :=
        match find "booking" e with
        | None => None
        | Some book_elem =>
            let bvals := _extract_vals (Some book_elem) in
            Some {| pickup_booking :=
                      String.eqb (upper (vals_get bvals "pickupbooking" EmptyString)) "YES";
                    pickup_date := vals_get bvals "pickupdate" EmptyString |}
        end in
      Ok {| carrier := c; product_code := product; addon := add;
            raw_srvid := raw; booking := bk |})
  end.

Definition _parse_container (env : Env) (elem : Element) : result Container :=
  let vals := _extract_vals (Some elem) in
  rbind (float_of_str env (vals_get vals "copies" "1")) (fun fc =>
  rbind (int_of_float fc) (fun n =>
  rbind (float_of_str env (vals_get vals "weight" "0")) (fun w =>
  rbind (float_of_str env (vals_get vals "volume" "0")) (fun v =>
  Ok {| container_type := elem_get elem "type" "parcel";
        measure := elem_get elem "measure" EmptyString;
        copies := n;
        package_code := vals_get vals "packagecode" "PC";
        contents := vals_get vals "contents" EmptyString;
        weight := w; volume := v;
        length := 0%float; width := 0%float; height := 0%float |})))).

Definition _parse_notifications (elem : option Element) : list Notification :=
  match elem with
  | None => []
  | Some e =>
      map (fun opt => {| opt_id := strip (elem_get opt "optid" EmptyString);
                         message := vals_get (_extract_vals (Some opt)) "message" EmptyString |})
          (findall "option" e)
  end.

Definition _parse_shipment (env : Env) (elem : Element) (recv : option Receiver)
  : result Shipment :=
  let vals := _extract_vals (Some elem) in
  rbind (_parse_service (find "service" elem)) (fun svc =>
  rbind (rmap (_parse_container env) (findall "container" elem)) (fun cs =>
  Ok {| order_no := strip (elem_get elem "orderno" EmptyString);
        sender_name := vals_get vals "from" EmptyString;
        reference := vals_get vals "reference" EmptyString;
        term_code := vals_get vals "termcode" EmptyString;
        service := Some svc;
        receiver := recv;
        containers := cs;
        notifications := _parse_notifications (find "ufonline" elem);
        delivery_instruction := vals_get vals "deliveryinstruction" EmptyString |})).

(** The body shared by [parse_file] and [parse_string], from the root
    element on. *)
Definition parse_root (env : Env) (root : Element) : result (list Shipment) :=
  let shared_receiver := option_map _parse_receiver (find "receiver" root) in
  rmap (fun ship_elem =>
          let recv := match find "receiver" ship_elem with
                      | Some r => Some (_parse_receiver r)
                      | None => shared_receiver
                      end in
          _parse_shipment env ship_elem recv)
       (findall "shipment" root).

(** ** The DHL client, pure part ([carriers/dhl.py]) *)

Definition API_PATHS (k : string) : string :=
  if String.eqb k "transport_instruction"
  then "/transportinstructionapi/v1/transportinstruction/sendtransportinstruction"
  else if String.eqb k "print_documents" then "/printapi/v1/print/printdocuments"
  else if String.eqb k "print_by_id" then "/printapi/v1/print/printdocumentsbyid"
  else if String.eqb k "print_multiple" then "/printapi/v1/print/printmultipledocuments"
  else if String.eqb k "service_points"
  then "/servicepointlocatorapi/v1/servicepoint/findnearestservicepoints"
  else if String.eqb k "pickup_request" then "/pickuprequestapi/v1/pickuprequest/pickuprequest"
  else "/additionalserviceapi/v1/additionalservices".

Definition ADDON_MAPPING : list (string * string) :=
  [ ("notification", "notification");
    ("AVIS", "notification");
    ("preAdviceDelivery", "preAdviceDelivery");
    ("tailLiftUnloading", "tailLiftUnloading");
    ("tailLiftLoading", "tailLiftLoading");
    ("indoorDelivery", "indoorDelivery");
    ("dangerousGoods", "dangerousGoods");
    ("insurance", "insurance");
    ("collectionAtTerminal", "collectionAtTerminal");
    ("nonStackable", "nonStackable") ].

Definition PACKAGE_TYPE_DEFAULTS : list (string * string) :=
  [ ("210", "701") ].

Definition clean_postal_code (zipcode : string) : string :=
  let cleaned := strip zipcode in
  if (3 <? String.length cleaned)%nat
     && match String.get 2 cleaned with
        | Some c => Ascii.eqb c "-"
        | None => false
        end
     && isalpha (str_take 2 cleaned)
  then str_drop 3 cleaned
  else cleaned.

(** The configuration a [DHLClient] is built from; its response cache is
    part of the state below. *)
Record DHLClient := mkDHLClient {
  base_url : string;
  customer_number : string;
  sender : gmap string string }.

Definition sender_get (snd : gmap string string) (k dflt : string) : string :=
  default dflt (snd !! k).

(** [_build_transport_instruction]; [today] is [date.today().isoformat()]. *)
Definition _build_transport_instruction (self : DHLClient) (today : string)
    (shipment : Shipment) : result json :=
  let recv := receiver shipment in
  let container := head (containers shipment) in
  match service shipment with
  | None => Raise (no_attribute "product_code")
  | Some svc =>
      let product := product_code svc in
      let wgt := match container with Some c => weight c | None => 1.0%float end in
      let vol := match container with Some c => volume c | None => 0.001%float end in
      let vol := if PrimFloat.leb vol 0%float then 0.001%float else vol in
      let cps := match container with Some c => copies c | None => 1 end in
      let shipping_date :=
        match booking svc with
        | Some b => if negb (str_empty (pickup_date b)) then pickup_date b else today
        | None => today
        end in
      let sender_zip := clean_postal_code (sender_get (sender self) "zipcode" EmptyString) in
      match recv with
      | None => Raise (no_attribute "zipcode")
      | Some recv =>
          let recv_zip := clean_postal_code (zipcode recv) in
          let parties := JList
            [ JDict
                [ ("id", JStr (customer_number self));
                  ("type", JStr "Consignor");
                  ("name", JStr (sender_get (sender self) "name" EmptyString));
                  ("references",
                     JList (if negb (str_empty (reference shipment))
                            then [JStr (reference shipment)] else []));
                  ("address", JDict
                     [ ("street", JStr (sender_get (sender self) "address1" EmptyString));
                       ("cityName", JStr (sender_get (sender self) "city" EmptyString));
                       ("postalCode", JStr sender_zip);
                       ("countryCode", JStr (sender_get (sender self) "country" "SE")) ]);
                  ("phone", JStr (sender_get (sender self) "phone" EmptyString));
                  ("email", JStr (sender_get (sender self) "email" EmptyString)) ];
              JDict
                [ ("type", JStr "Consignee");
                  ("name", JStr (rname recv));
                  ("references", JList []);
                  ("address", JDict
                     [ ("street", JStr (address1 recv));
                       ("cityName", JStr (city recv));
                       ("postalCode", JStr recv_zip);
                       ("countryCode", JStr (country recv)) ]);
                  ("phone", JStr (phone recv));
                  ("email", JStr (email recv)) ] ] in
          let pkg_type :=
            match container with
            | Some c =>
                if negb (str_empty (package_code c)) then package_code c
                else default "PKT" (assoc_get product PACKAGE_TYPE_DEFAULTS)
            | None => default "PKT" (assoc_get product PACKAGE_TYPE_DEFAULTS)
            end in
          let dim (k : string) (get : Container -> float) : list (string * json) :=
            match container with
            | Some c => if PrimFloat.ltb 0%float (get c) then [(k, JFloat (get c))] else []
            | None => []
            end in
          let pieces := JList
            [ JDict
                ([ ("id", JList [JStr EmptyString]);
                   ("packageType", JStr pkg_type);
                   ("numberOfPieces", JInt cps);
                   ("weight", JFloat wgt);
                   ("volume", JFloat vol) ]
                 ++ dim "length" length ++ dim "width" width ++ dim "height" height) ] in
          let additional_services :=
            if negb (str_empty (addon svc))
            then [ (default (addon svc) (assoc_get (addon svc) ADDON_MAPPING), JBool true) ]
            else [] in
          Ok (JDict
            [ ("id", JStr EmptyString);
              ("productCode", JStr product);
              ("shippingDate", JStr shipping_date);
              ("deliveryInstruction", JStr (delivery_instruction shipment));
              ("pickupInstruction", JStr EmptyString);
              ("totalNumberOfPieces", JInt cps);
              ("totalWeight", JFloat wgt);
              ("totalVolume", JFloat vol);
              ("payerCode", JDict [ ("code", JStr "1"); ("location", JStr EmptyString) ]);
              ("parties", parties);
              ("additionalServices", JDict additional_services);
              ("pieces", pieces) ])
      end
  end.

(** [response.json()] and [response.raise_for_status()]; the message of
    the latter is shortened (the library also prints the status and its
    reason). *)
Definition response_json (r : response) : result json :=
  match json_body r with
  | Some j => Ok j
  | None => Raise (Exn JSONDecodeError "Expecting value")
  end.

Definition raise_for_status (url : string) (r : response) : result unit :=
  if (400 <=? status_code r) && (status_code r <? 500)
  then Raise (Exn HTTPError ("Client Error for url: " ++ url))
  else if (500 <=? status_code r) && (status_code r <? 600)
  then Raise (Exn HTTPError ("Server Error for url: " ++ url))
  else Ok tt.

(** [base64.b64decode(x)] *)
Definition py_b64decode (env : Env) (x : json) : result bytes :=
  match x with
  | JStr s =>
      match b64decode env s with
      | Some b => Ok b
      | None => Raise (Exn binascii_Error "Invalid base64-encoded string")
      end
  | _ => Raise (Exn TypeError "argument should be a bytes-like object or ASCII string")
  end.

(** The loop of [_extract_label_from_response]: the first report whose
    [type] is "Label". *)
Fixpoint find_label (reports : list json) : result (option json) :=
  match reports with
  | [] => Ok None
  | report :: rest =>
      rbind (dict_get report "type" JNull) (fun t =>
      if json_is_str t "Label" then Ok (Some report) else find_label rest)
  end.

Definition dict_keys (j : json) : list (string * json) :=
  match j with JDict kv => kv | _ => [] end.

Definition _extract_label_from_response (env : Env) (resp : response)
    (endpoint : string) : result bytes :=
  let ct := content_type resp in
  if str_in "application/pdf" ct || str_in "application/octet-stream" ct then
    Ok (content resp)
  else if str_in "json" ct then
    rbind (response_json resp) (fun data =>
    rbind (dict_get data "reports" (JList [])) (fun reports =>
    if negb (truthy reports) then
      Raise (Exn RuntimeError
               ("DHL " ++ endpoint ++ ": Svar 200 men inga reports. Response: " ++
                str_take 200 (text resp)))
    else
      rbind (iter reports) (fun rs =>
      rbind (find_label rs) (fun found =>
      rbind (match found with Some r => Ok r | None => index0 reports end) (fun label_report =>
      rbind (dict_get label_report "content" (JStr EmptyString)) (fun content_b64 =>
      if truthy content_b64 then py_b64decode env content_b64
      else
        Raise (Exn RuntimeError
                 ("DHL " ++ endpoint ++ ": Report finns men 'content' är tomt. Report keys: " ++
                  repr_keys (dict_keys label_report)))))))))
  else
    Ok (content resp).

(** The loop of [_extract_document_from_response]. *)
Fixpoint find_document (env : Env) (doc_type : string) (reports : list json)
  : result (option bytes) :=
  match reports with
  | [] => Ok None
  | report :: rest =>
      rbind (dict_get report "type" JNull) (fun t =>
      if json_is_str t doc_type then
        rbind (dict_get report "content" (JStr EmptyString)) (fun content_b64 =>
        if truthy content_b64 then rbind (py_b64decode env content_b64) (fun b => Ok (Some b))
        else find_document env doc_type rest)
      else find_document env doc_type rest)
  end.

Definition _extract_document_from_response (env : Env) (resp : response)
    (doc_type : string) : result (option bytes) :=
  if negb (str_in "json" (content_type resp)) then Ok None
  else
    rbind (response_json resp) (fun data =>
    rbind (dict_get data "reports" (JList [])) (fun reports =>
    rbind (iter reports) (fun rs => find_document env doc_type rs))).

(** ** The second carrier ([carriers/postnord.py]) *)

Record PostNordClient := mkPostNordClient {
  pn_base_url : string;
  pn_customer_number : string;
  pn_sender : gmap string string }.

Definition _build_booking_payload (self : PostNordClient) (shipment : Shipment)
    (label_format : string) : result json :=
  let recv := receiver shipment in
  let container := head (containers shipment) in
  match service shipment with
  | None => Raise (no_attribute "product_code")
  | Some svc =>
      match recv with
      | None => Raise (no_attribute "name")
      | Some recv =>
          Ok (JDict
            [ ("shipment", JDict
                [ ("service", JDict
                    [ ("basicServiceCode", JStr (product_code svc));
                      ("additionalServiceCode",
                         JList (if negb (str_empty (addon svc)) then [JStr (addon svc)] else [])) ]);
                  ("parties", JDict
                    [ ("sender", JDict
                        [ ("name1", JStr (sender_get (pn_sender self) "name" EmptyString));
                          ("addressLine1", JStr (sender_get (pn_sender self) "address1" EmptyString));
                          ("postalCode", JStr (sender_get (pn_sender self) "zipcode" EmptyString));
                          ("city", JStr (sender_get (pn_sender self) "city" EmptyString));
                          ("countryCode", JStr (sender_get (pn_sender self) "country" "SE"));
                          ("contact", JDict
                             [ ("emailAddress", JStr (sender_get (pn_sender self) "email" EmptyString));
                               ("phoneNo", JStr (sender_get (pn_sender self) "phone" EmptyString)) ]) ]);
                      ("receiver", JDict
                        [ ("name1", JStr (rname recv));
                          ("addressLine1", JStr (address1 recv));
                          ("addressLine2", JStr (address2 recv));
                          ("postalCode", JStr (zipcode recv));
                          ("city", JStr (city recv));
                          ("countryCode", JStr (country recv));
                          ("contact", JDict
                             [ ("emailAddress", JStr (email recv));
                               ("phoneNo", JStr (phone recv));
                               ("name", JStr (contact recv)) ]) ]) ]);
                  ("parcels", JList
                    [ JDict
                        [ ("weight", JDict
                             [ ("value", JFloat (match container with
                                                 | Some c => weight c | None => 1.0%float end));
                               ("unit", JStr "kg") ]);
                          ("volume", JDict
                             [ ("value", JFloat (match container with
                                                 | Some c => volume c | None => 0%float end));
                               ("unit", JStr "m3") ]);
                          ("contents", JStr (match container with
                                             | Some c => contents c | None => EmptyString end));
                          ("numberOfPackages", JInt (match container with
                                                     | Some c => copies c | None => 1 end)) ] ]);
                  ("orderReference", JStr (reference shipment));
                  ("customerNumber", JStr (pn_customer_number self)) ]);
              ("printConfig", JDict
                [ ("target", JDict [ ("media", JStr (upper label_format)) ]) ]) ])
      end
  end.

(** ** Paths ([pathlib]) *)

Record path := mkPath { parent : string; name : string }.

Definition path_pair (p : path) : string * string := (parent p, name p).

#[global] Instance path_eq_dec : EqDecision path.
Proof. solve_decision. Defined.

#[global] Instance path_countable : Countable path.
Proof.
  refine (inj_countable' path_pair (fun q => mkPath (fst q) (snd q)) _).
  intros []; reflexivity.
Defined.

(** [dir / name] *)
Definition joinpath (dir nm : string) : path := mkPath dir nm.

(** The name cut at its last dot: [(name[:i], name[i:])] with [i] the
    index [name.rfind('.')]. *)
Fixpoint rsplit_dot (s : string) : option (string * string) :=
  match s with
  | EmptyString => None
  | String c r =>
      match rsplit_dot r with
      | Some (a, b) => Some (String c a, b)
      | None => if Ascii.eqb c "." then Some (EmptyString, s) else None
      end
  end.

(** [PurePath.suffix]: the last dot starts a suffix unless it is the first
    or the last character of the name. *)
Definition suffix (nm : string) : string :=
  match rsplit_dot nm with
  | Some (stem, suf) =>
      if negb (str_empty stem) && (1 <? String.length suf)%nat then suf else EmptyString
  | None => EmptyString
  end.

(** [p.with_suffix(suf)] for a path with a name. *)
Definition with_suffix (p : path) (suf : string) : path :=
  let old := suffix (name p) in
  if str_empty old then mkPath (parent p) (name p ++ suf)
  else mkPath (parent p)
              (str_take (String.length (name p) - String.length old) (name p) ++ suf).

(** ** State, events and the monad of effectful code *)

Inductive fdata :=
  | FXml (doc : option Element)   (* an export file; None when it is not well-formed XML *)
  | FBytes (b : bytes)
  | FText (s : string).

Record fnode := mkNode { fcontent : fdata; st_mtime : float }.

Inductive event :=
  | shipment_ok (order : string) (tracking : json) (carrier_value : string)
  | shipment_error (order : string) (error : string)
  | file_done (filename : string)
  | file_error (filename : string) (error : string).

(** The registered [on_event] consumer: given the events it has received so
    far and a new one, it returns ([None]) or raises ([Some e]). *)
Definition callback : Type := list event -> event -> option exn.

Inductive level := WARNING | ERROR.

Record state := mkState {
  fs : gmap path fnode;             (* the files on disk *)
  _ti_cache : gmap string json;     (* DHLClient._ti_cache *)
  http_log : list request;          (* the requests sent so far *)
  events : list event;              (* the calls of on_event so far *)
  ticks : nat }.                    (* clock readings so far *)

Record outcome (A : Type) := mkOut {
  res : result A;
  post : state;
  logs : list (level * string) }.
Arguments mkOut {A} res post logs.
Arguments res {A} o.
Arguments post {A} o.
Arguments logs {A} o.

Definition M (A : Type) : Type := state -> outcome A.

Definition ret {A} (a : A) : M A := fun st => mkOut (Ok a) st [].

Definition raise {A} (e : exn) : M A := fun st => mkOut (Raise e) st [].

Definition bind {A B} (m : M A) (k : A -> M B) : M B :=
  fun st =>
    match m st with
    | mkOut (Ok a) st1 l1 =>
        match k a st1 with mkOut r st2 l2 => mkOut r st2 (l1 ++ l2) end
    | mkOut (Raise e) st1 l1 => mkOut (Raise e) st1 l1
    end.

Notation "x <- c1 ;; c2" := (bind c1 (fun x => c2))
  (at level 100, c1 at next level, right associativity).
Notation "c1 ;; c2" := (bind c1 (fun _ => c2))
  (at level 100, right associativity).

(** [try: m  except Exception as e: h e] *)
Definition try_except {A} (m : M A) (h : exn -> M A) : M A :=
  fun st =>
    match m st with
    | mkOut (Ok a) st1 l1 => mkOut (Ok a) st1 l1
    | mkOut (Raise e) st1 l1 =>
        match h e st1 with mkOut r st2 l2 => mkOut r st2 (l1 ++ l2) end
    end.

Definition is_FileExistsError (e : exn) : bool :=
  match exn_cls e with FileExistsError => true | _ => false end.

(** [try: m  except FileExistsError: h] *)
Definition try_except_exists {A} (m : M A) (h : M A) : M A :=
  fun st =>
    match m st with
    | mkOut (Ok a) st1 l1 => mkOut (Ok a) st1 l1
    | mkOut (Raise e) st1 l1 =>
        if is_FileExistsError e
        then match h st1 with mkOut r st2 l2 => mkOut r st2 (l1 ++ l2) end
        else mkOut (Raise e) st1 l1
    end.

(** [try: m  finally: f]; an exception of [f] replaces the result of [m]. *)
Definition try_finally {A} (m : M A) (f : M unit) : M A :=
  fun st =>
    match m st with
    | mkOut r st1 l1 =>
        match f st1 with
        | mkOut (Ok _) st2 l2 => mkOut r st2 (l1 ++ l2)
        | mkOut (Raise e) st2 l2 => mkOut (Raise e) st2 (l1 ++ l2)
        end
    end.

Definition lift {A} (r : result A) : M A :=
  fun st => mkOut r st [].

Definition get_state : M state := fun st => mkOut (Ok st) st [].

Definition log (lv : level) (msg : string) : M unit :=
  fun st => mkOut (Ok tt) st [(lv, msg)].

Definition set_fs (f : gmap path fnode) (st : state) : state :=
  mkState f (_ti_cache st) (http_log st) (events st) (ticks st).

Definition set_cache (c : gmap string json) (st : state) : state :=
  mkState (fs st) c (http_log st) (events st) (ticks st).

Definition modify (f : state -> state) : M unit :=
  fun st => mkOut (Ok tt) (f st) [].

(** [datetime.now().timestamp()]: one more reading of the clock. *)
Definition now (env : Env) : M float :=
  fun st =>
    mkOut (Ok (clock env (ticks st)))
          (mkState (fs st) (_ti_cache st) (http_log st) (events st) (S (ticks st))) [].

(** *** Files *)

Definition path_str (p : path) : string := parent p ++ "/" ++ name p.

(** [p.exists()] *)
Definition exists_ (p : path) : M bool :=
  st <- get_state ;; ret (bool_decide (is_Some (fs st !! p))).

(** [p.open("x").close()]: create the file, fail when it is there. *)
Definition open_x (env : Env) (p : path) : M unit :=
  st <- get_state ;;
  match fs st !! p with
  | Some _ => raise (Exn FileExistsError ("File exists: '" ++ path_str p ++ "'"))
  | None => modify (set_fs (<[p := mkNode (FBytes []) (clock env (ticks st))]> (fs st)))
  end.

(** [p.stat().st_mtime] *)
Definition stat_mtime (p : path) : M float :=
  st <- get_state ;;
  match fs st !! p with
  | Some nd => ret (st_mtime nd)
  | None => raise (Exn FileNotFoundError ("No such file or directory: '" ++ path_str p ++ "'"))
  end.

(** [p.unlink()] and [p.unlink(missing_ok=True)] *)
Definition unlink (p : path) : M unit :=
  st <- get_state ;;
  match fs st !! p with
  | Some _ => modify (set_fs (delete p (fs st)))
  | None => raise (Exn FileNotFoundError ("No such file or directory: '" ++ path_str p ++ "'"))
  end.

Definition unlink_missing_ok (p : path) : M unit :=
  st <- get_state ;; modify (set_fs (delete p (fs st))).

(** [p.write_bytes(b)] and [p.write_text(s)] *)
Definition write_file (env : Env) (p : path) (d : fdata) : M unit :=
  st <- get_state ;;
  modify (set_fs (<[p := mkNode d (clock env (ticks st))]> (fs st))).

(** [shutil.move(src, dst)] of a file to a file name. *)
Definition shutil_move (src dst : path) : M unit :=
  st <- get_state ;;
  match fs st !! src with
  | Some nd => modify (set_fs (<[dst := nd]> (delete src (fs st))))
  | None => raise (Exn FileNotFoundError ("No such file or directory: '" ++ path_str src ++ "'"))
  end.

(** *** HTTP *)

(** [session.post(url, json=payload, timeout=...)]; the retries of the
    adapter are inside the server's answer. *)
Definition add_request (rq : request) (st : state) : state :=
  mkState (fs st) (_ti_cache st) (http_log st ++ [rq]) (events st) (ticks st).

Definition session_post (env : Env) (url : string) (payload : json) : M response :=
  fun st =>
    let rq := mkRequest url payload in
    match server env (http_log st) rq with
    | NetFail e => mkOut (Raise e) (add_request rq st) []
    | Reply r => mkOut (Ok r) (add_request rq st) []
    end.

(** ** The DHL client, calls to the carrier ([carriers/dhl.py]) *)

Definition string_of_Z (z : Z) : string := NilZero.string_of_int (Z.to_int z).

(** [str(x)] *)
Definition py_str (env : Env) (j : json) : string :=
  match j with
  | JStr s => s
  | JInt z => string_of_Z z
  | JBool true => "True"
  | JBool false => "False"
  | JNull => "None"
  | _ => py_repr env j
  end.

Definition is_list (j : json) : bool :=
  match j with JList _ => true | _ => false end.

(** [create_shipment] returns [(shipment_id, tracking_number)]. *)
Definition create_shipment (env : Env) (self : DHLClient) (shipment : Shipment)
  : M (string * json) :=
  t <- now env ;;
  payload <- lift (_build_transport_instruction self (today_iso env t) shipment) ;;
  let url := base_url self ++ API_PATHS "transport_instruction" in
  resp <- session_post env url payload ;;
  lift (raise_for_status url resp) ;;
  data <- lift (response_json resp) ;;
  ti <- lift (dict_get data "transportInstruction" data) ;;
  tid <- lift (dict_get ti "id" (JStr EmptyString)) ;;
  let ti_id := py_str env tid in
  pieces <- lift (dict_get ti "pieces" (JList [])) ;;
  barcode_id <-
    (if truthy pieces then
       p0 <- lift (index0 pieces) ;;
       piece_ids <- lift (dict_get p0 "id" (JList [])) ;;
       if truthy piece_ids && is_list piece_ids then lift (index0 piece_ids)
       else lift (dict_get p0 "barcodeId" (JStr EmptyString))
     else ret (JStr EmptyString)) ;;
  st <- get_state ;;
  modify (set_cache (<[ti_id := ti]> (_ti_cache st))) ;;
  ret (ti_id, barcode_id).

Definition print_payload (ti_data : json) (option_name : string) : json :=
  JDict [ ("shipment", ti_data); ("options", JDict [ (option_name, JBool true) ]) ].

Definition _print_documents (env : Env) (self : DHLClient) (ti_data : json) : M bytes :=
  let url := base_url self ++ API_PATHS "print_documents" in
  resp <- session_post env url (print_payload ti_data "label") ;;
  lift (raise_for_status url resp) ;;
  lift (_extract_label_from_response env resp "printdocuments").

Definition print_by_id_payload (shipment_id : string) : json :=
  JDict [ ("transportInstructionId", JStr shipment_id);
          ("options", JDict [ ("label", JBool true) ]) ].

Definition _print_documents_by_id (env : Env) (self : DHLClient) (shipment_id : string)
  : M bytes :=
  let url := base_url self ++ API_PATHS "print_by_id" in
  resp <- session_post env url (print_by_id_payload shipment_id) ;;
  lift (raise_for_status url resp) ;;
  lift (_extract_label_from_response env resp "printdocumentsbyid").

(** The cached response when it is there and not an empty object
    ([if ti_data:]). *)
Definition cached_ti (st : state) (shipment_id : string) : option json :=
  match _ti_cache st !! shipment_id with
  | Some ti => if truthy ti then Some ti else None
  | None => None
  end.

Definition label_unavailable (shipment_id : string) : exn :=
  Exn RuntimeError ("DHL: Kunde inte hämta etikett för " ++ shipment_id ++ ". " ++
                    "Varken printdocuments eller printdocumentsbyid fungerade.").

Definition get_label (env : Env) (self : DHLClient) (shipment_id : string) : M bytes :=
  st <- get_state ;;
  tier1 <-
    match cached_ti st shipment_id with
    | Some ti_data =>
        try_except (b <- _print_documents env self ti_data ;; ret (Some b))
                   (fun e => log WARNING ("DHL: printdocuments misslyckades: " ++ exn_msg e) ;;
                             ret None)
    | None => ret None
    end ;;
  match tier1 with
  | Some b => ret b
  | None =>
      tier2 <-
        try_except (b <- _print_documents_by_id env self shipment_id ;; ret (Some b))
                   (fun e => log WARNING ("DHL: printdocumentsbyid misslyckades: " ++ exn_msg e) ;;
                             ret None) ;;
      match tier2 with
      | Some b => ret b
      | None => raise (label_unavailable shipment_id)
      end
  end.

Definition no_cached_ti (shipment_id : string) : exn :=
  Exn RuntimeError ("DHL: Ingen cachad TI-data för " ++ shipment_id ++ ". " ++
                    "Anropa create_shipment() först.").

(** [get_all_documents] returns [(label, shipment_list)].  Whatever
    raises inside the second [try], the length of a missing list in the
    INFO record included, leaves [shipment_list] as it is: [None] or the
    bytes just read. *)
Definition get_all_documents (env : Env) (self : DHLClient) (shipment_id : string)
  : M (bytes * option bytes) :=
  st <- get_state ;;
  match cached_ti st shipment_id with
  | None => raise (no_cached_ti shipment_id)
  | Some ti_data =>
      label <- _print_documents env self ti_data ;;
      shipment_list <-
        try_except
          (let url := base_url self ++ API_PATHS "print_documents" in
           resp <- session_post env url (print_payload ti_data "shipmentList") ;;
           lift (raise_for_status url resp) ;;
           lift (_extract_document_from_response env resp "ShipmentList"))
          (fun _ => ret None) ;;
      ret (label, shipment_list)
  end.

Definition request_pickup (env : Env) (self : DHLClient) (shipment_id pickup : string)
  : M json :=
  let url := base_url self ++ API_PATHS "pickup_request" in
  resp <- session_post env url
            (JDict [ ("transportInstructionId", JStr shipment_id);
                     ("pickupDate", JStr pickup) ]) ;;
  lift (raise_for_status url resp) ;;
  lift (response_json resp).

(** ** The orchestrator ([orchestrator.py]) *)

Record ShipmentOrchestrator := mkOrchestrator {
  dhl : DHLClient;
  done_dir : string;
  error_dir : string;
  label_cache : string;
  on_event : option callback }.

Definition add_event (ev : event) (st : state) : state :=
  mkState (fs st) (_ti_cache st) (http_log st) (events st ++ [ev]) (ticks st).

Definition _notify (self : ShipmentOrchestrator) (ev : event) : M unit :=
  match on_event self with
  | None => ret tt
  | Some cb =>
      st <- get_state ;;
      modify (add_event ev) ;;
      match cb (events st) ev with
      | None => ret tt
      | Some e => log WARNING ("Event-callback fel: " ++ exn_msg e)
      end
  end.

Definition nl : string := String (ascii_of_nat 10) EmptyString.

Definition lock_path_of (filepath : path) : path := with_suffix filepath ".lock".

Definition _acquire_lock (env : Env) (filepath : path) : M bool :=
  let lock_path := lock_path_of filepath in
  try_except_exists
    (open_x env lock_path ;; ret true)
    (present <- exists_ lock_path ;;
     if present then
       t <- now env ;;
       mtime <- stat_mtime lock_path ;;
       let age := PrimFloat.sub t mtime in
       if PrimFloat.ltb 300%float age then
         unlink lock_path ;;
         open_x env lock_path ;;
         log WARNING ("Tog bort gammal lockfil för " ++ name filepath) ;;
         ret true
       else ret false
     else ret false).

Definition _release_lock (filepath : path) : M unit :=
  unlink_missing_ok (lock_path_of filepath).

Definition _move_to_done (env : Env) (self : ShipmentOrchestrator) (filepath : path)
  : M unit :=
  t <- now env ;;
  let ts := strftime env t in
  let dest := joinpath (done_dir self) (ts ++ "_" ++ name filepath) in
  shutil_move filepath dest.

Definition error_text (ts filename reason : string) : string :=
  "Tid: " ++ ts ++ nl ++ "Fil: " ++ filename ++ nl ++ "Fel: " ++ reason ++ nl.

Definition _move_to_error (env : Env) (self : ShipmentOrchestrator) (filepath : path)
    (reason : string) : M unit :=
  t <- now env ;;
  let ts := strftime env t in
  let dest := joinpath (error_dir self) (ts ++ "_" ++ name filepath) in
  shutil_move filepath dest ;;
  let error_log := with_suffix dest ".error.txt" in
  write_file env error_log (FText (error_text ts (name filepath) reason)) ;;
  log ERROR ("  Flyttad till Error: " ++ name dest ++ " — " ++ reason).

(** [parser.parse_file(filepath)]: [ET.parse] reads the document, the rest
    is [parse_root]. *)
Definition parse_file (env : Env) (filepath : path) : M (list Shipment) :=
  st <- get_state ;;
  match fs st !! filepath with
  | None =>
      raise (Exn FileNotFoundError ("No such file or directory: '" ++ path_str filepath ++ "'"))
  | Some nd =>
      match fcontent nd with
      | FXml (Some root) => lift (parse_root env root)
      | _ => raise (Exn ParseError "syntax error: line 1, column 0")
      end
  end.

Definition has_enot (shipment : Shipment) : bool :=
  existsb (fun n => String.eqb (opt_id n) "enot") (notifications shipment).

(** [next((n.message for n in notifications if n.opt_id == "enot"), "")] *)
Fixpoint enot_message (ns : list Notification) : string :=
  match ns with
  | [] => EmptyString
  | n :: r => if String.eqb (opt_id n) "enot" then message n else enot_message r
  end.

Definition nonempty_bytes (b : option bytes) : option bytes :=
  match b with
  | Some (x :: r) => Some (x :: r)
  | _ => None
  end.

Definition _process_single (env : Env) (self : ShipmentOrchestrator) (shipment : Shipment)
  : M unit :=
  match service shipment with
  | None => raise (no_attribute "carrier")
  | Some svc =>
      let c := carrier svc in
      match c with
      | POSTNORD =>
          raise (Exn ValueError ("Transportör '" ++ CarrierType_value c ++
                                 "' stöds inte ännu. Stödda: DHL"))
      | DHL =>
          created <- create_shipment env (dhl self) shipment ;;
          let shipment_id := fst created in
          let tracking := snd created in
          documents <- get_all_documents env (dhl self) shipment_id ;;
          let label_data := fst documents in
          let shipment_list := snd documents in
          match booking svc with
          | Some b =>
              if pickup_booking b && negb (str_empty (pickup_date b))
              then request_pickup env (dhl self) shipment_id (pickup_date b) ;; ret tt
              else ret tt
          | None => ret tt
          end ;;
          let label_path := joinpath (label_cache self) (order_no shipment ++ ".pdf") in
          write_file env label_path (FBytes label_data) ;;
          printed <- lift (printer_label env label_data "pdf" (order_no shipment)) ;;
          (if printed then ret tt
           else log WARNING "  Etikett-utskrift misslyckades — etiketten finns sparad på disk") ;;
          match nonempty_bytes shipment_list with
          | Some sl =>
              let list_path :=
                joinpath (label_cache self) (order_no shipment ++ "_shipmentlist.pdf") in
              write_file env list_path (FBytes sl) ;;
              lift (printer_document env sl "pdf" (order_no shipment)) ;;
              ret tt
          | None => ret tt
          end ;;
          match receiver shipment with
          | Some r =>
              if negb (str_empty (email r)) && has_enot shipment
              then lift (send_tracking_email env (email r) (order_no shipment) tracking c
                           (enot_message (notifications shipment))) ;;
                   ret tt
              else ret tt
          | None => ret tt
          end ;;
          _notify self (shipment_ok (order_no shipment) tracking (CarrierType_value c))
      end
  end.

(** The [for shipment in shipments] loop of [process_file], threading
    [all_ok]. *)
Fixpoint process_shipments (env : Env) (self : ShipmentOrchestrator)
    (shipments : list Shipment) (all_ok : bool) : M bool :=
  match shipments with
  | [] => ret all_ok
  | shipment :: rest =>
      ok <- try_except
              (_process_single env self shipment ;; ret all_ok)
              (fun e =>
                 log ERROR ("Fel vid bearbetning av order " ++ order_no shipment ++ ": " ++
                            exn_msg e) ;;
                 _notify self (shipment_error (order_no shipment) (exn_msg e)) ;;
                 ret false) ;;
      process_shipments env self rest ok
  end.

Definition partial_failure : string := "Delvis misslyckad bearbetning".

(** What [process_file] does once it holds the lock: the [try] statement
    with its [except] and [finally] clauses, then [return all_ok]. *)
Definition process_locked (env : Env) (self : ShipmentOrchestrator) (filepath : path)
  : M bool :=
  try_finally
    (try_except
       (shipments <- parse_file env filepath ;;
        all_ok <- process_shipments env self shipments true ;;
        (if all_ok then
           _move_to_done env self filepath ;;
           _notify self (file_done (name filepath))
         else
           _move_to_error env self filepath partial_failure ;;
           _notify self (file_error (name filepath) partial_failure)) ;;
        ret all_ok)
       (fun e =>
          log ERROR ("XML-parsningsfel för " ++ name filepath ++ ": " ++ exn_msg e) ;;
          _move_to_error env self filepath (exn_msg e) ;;
          _notify self (file_error (name filepath) (exn_msg e)) ;;
          ret false))
    (_release_lock filepath).

Definition process_file (env : Env) (self : ShipmentOrchestrator) (filepath : path)
  : M bool :=
  locked <- _acquire_lock env filepath ;;
  if locked then process_locked env self filepath
  else
    log WARNING ("Filen " ++ name filepath ++ " bearbetas redan (lockfil finns)") ;;
    ret false.

(** ** Specification-level definitions and concrete instances

    The definitions below are not part of the program: the first ones
    restate a rule in the words of the design document, to be compared with
    the code; the others are concrete libraries, servers and inputs on
    which the theorems are instantiated. *)


(** The key and the trimmed text of a [<val n="key">text</val>] element. *)
Definition val_key (v : Element) : string := elem_get v "n" EmptyString.

Definition val_text (v : Element) : string := strip (default EmptyString (elem_text v)).

(** A field of a JSON object, and the first element of a JSON list. *)
Definition field (k : string) (j : json) : option json :=
  match j with JDict kv => assoc_get k kv | _ => None end.

Definition first (j : json) : option json :=
  match j with JList (x :: _) => Some x | _ => None end.

(** The first piece of a DHL creation payload. *)
Definition first_piece (payload : json) : option json :=
  match field "pieces" payload with Some ps => first ps | None => None end.

(** The parcel of a PostNord booking payload, and a measure of it. *)
Definition first_parcel (payload : json) : option json :=
  match field "shipment" payload with
  | Some s => match field "parcels" s with Some ps => first ps | None => None end
  | None => None
  end.

Definition parcel_value (k : string) (parcel : json) : option json :=
  match field k parcel with Some m => field "value" m | None => None end.

(** [0 < x] on JSON numbers, as the carrier reads the payload. *)
Definition positive (j : option json) : bool :=
  match j with
  | Some (JFloat f) => PrimFloat.ltb 0%float f
  | Some (JInt z) => 0 <? z
  | _ => false
  end.

(** *** A base64 decoder for canonical text, as an instance of
    [base64.b64decode] *)

Definition b64_value (c : ascii) : option N :=
  let n := N_of_ascii c in
  if ((65 <=? n) && (n <=? 90))%N then Some (n - 65)%N
  else if ((97 <=? n) && (n <=? 122))%N then Some (n - 71)%N
  else if ((48 <=? n) && (n <=? 57))%N then Some (n + 4)%N
  else if (n =? 43)%N then Some 62%N
  else if (n =? 47)%N then Some 63%N
  else None.

Fixpoint b64_values (s : string) : option (list N) :=
  match s with
  | EmptyString => Some []
  | String c r =>
      if Ascii.eqb c "=" then
        (if String.eqb r EmptyString || String.eqb r "=" then Some [] else None)
      else
        match b64_value c, b64_values r with
        | Some v, Some vs => Some (v :: vs)
        | _, _ => None
        end
  end.

Definition byte_of (n : N) : Byte.byte :=
  default Byte.x00 (Byte.of_N (n mod 256)%N).

Fixpoint b64_groups (l : list N) : option bytes :=
  match l with
  | a :: b :: c :: d :: r =>
      let n := (a * 262144 + b * 4096 + c * 64 + d)%N in
      match b64_groups r with
      | Some bs => Some (byte_of (n / 65536) :: byte_of (n / 256) :: byte_of n :: bs)
      | None => None
      end
  | [a; b; c] =>
      let n := (a * 262144 + b * 4096 + c * 64)%N in
      Some [byte_of (n / 65536); byte_of (n / 256)]
  | [a; b] =>
      let n := (a * 262144 + b * 4096)%N in
      Some [byte_of (n / 65536)]
  | [] => Some []
  | [_] => None
  end.

Definition b64_decode (s : string) : option bytes :=
  if (String.length s mod 4 =? 0)%nat then
    match b64_values s with
    | Some vs => b64_groups vs
    | None => None
    end
  else None.

(** *** A reader of plain decimal numbers, as an instance of [float(s)] *)

Fixpoint digits_value (s : string) (acc : Z) : option Z :=
  match s with
  | EmptyString => Some acc
  | String c r =>
      let n := Z.of_nat (nat_of_ascii c) in
      if (48 <=? n) && (n <=? 57) then digits_value r (10 * acc + (n - 48)) else None
  end.

Definition float_of_Z (z : Z) : float := PrimFloat.of_uint63 (Uint63.of_Z z).

Definition parse_decimal (s : string) : option float :=
  let s := strip s in
  if String.eqb s "nan" then Some PrimFloat.nan
  else
    let signed :=
      match s with
      | String "-" r => (true, r)
      | String "+" r => (false, r)
      | _ => (false, s)
      end in
    let sign (f : float) : float := if fst signed then PrimFloat.opp f else f in
    match split_on "." (snd signed) with
    | [ip] =>
        if str_empty ip then None
        else option_map (fun m => sign (float_of_Z m)) (digits_value ip 0)
    | [ip; fp] =>
        if str_empty ip && str_empty fp then None
        else option_map
               (fun m => sign (PrimFloat.div (float_of_Z m)
                                             (float_of_Z (10 ^ Z.of_nat (String.length fp)))))
               (digits_value (ip ++ fp) 0)
    | _ => None
    end.

(** *** Sample inputs, after the fixtures of the test-suite *)

Definition sender_config : gmap string string :=
  {[ "name" := "Ernst P AB"; "address1" := "Mobelgatan 5"; "zipcode" := "43133";
     "city" := "Molndal"; "country" := "SE"; "phone" := "+46317030770";
     "email" := "order@ernstp.se"; "customer_number_dhl" := "101733" ]}.

Definition client : DHLClient :=
  {| base_url := "https://test-api.freight-logistics.dhl.com";
     customer_number := "101733";
     sender := sender_config |}.

Definition pn_client : PostNordClient :=
  {| pn_base_url := "https://api2.postnord.com/rest";
     pn_customer_number := EmptyString;
     pn_sender := sender_config |}.

Definition sample_receiver : Receiver :=
  {| rcvid := "7631"; rname := "Test Mottagare AB"; address1 := "Kungsgatan 1";
     address2 := EmptyString; zipcode := "41101"; city := "Goteborg"; country := "SE";
     phone := "+46701234567"; email := "test@test.se"; contact := EmptyString;
     sms := EmptyString |}.

Definition sample_container : Container :=
  {| container_type := "parcel"; measure := EmptyString; copies := 1;
     package_code := "PKT"; contents := EmptyString;
     weight := 5.5%float; volume := 0.004%float;
     length := 20%float; width := 20%float; height := 10%float |}.

Definition shipment_of (c : CarrierType) (product : string) (bk : option BookingInfo)
    (cs : list Container) : Shipment :=
  {| order_no := "107739-132888"; sender_name := "Ernst P AB";
     reference := "107739-132888"; term_code := "S";
     service := Some {| carrier := c; product_code := product; addon := EmptyString;
                        raw_srvid := CarrierType_value c ++ ":" ++ product; booking := bk |};
     receiver := Some sample_receiver;
     containers := cs;
     notifications := [];
     delivery_instruction := "Lamna vid dorren" |}.

Definition sample_shipment : Shipment :=
  shipment_of DHL "102" (Some {| pickup_booking := true; pickup_date := "2026-02-19" |})
              [sample_container].

(** A booking element that carries a date and does not ask for a pickup:
    [<val n="pickupbooking">NO</val><val n="pickupdate">2026-02-19</val>]. *)
Definition unrequested_pickup_shipment : Shipment :=
  shipment_of DHL "102" (Some {| pickup_booking := false; pickup_date := "2026-02-19" |})
              [sample_container].

Definition container_of (w v : float) (code : string) : Container :=
  {| container_type := "parcel"; measure := EmptyString; copies := 1;
     package_code := code; contents := EmptyString; weight := w; volume := v;
     length := 0%float; width := 0%float; height := 0%float |}.

Definition payload_of (r : result json) : json :=
  match r with Ok p => p | Raise _ => JNull end.

Definition sample_payload : json :=
  Eval vm_compute in payload_of (_build_transport_instruction client "2026-11-04" sample_shipment).

(** A field of the first piece of a DHL payload, a measure of the parcel of
    a PostNord payload. *)
Definition piece_field (k : string) (payload : json) : option json :=
  match first_piece payload with Some pc => field k pc | None => None end.

Definition parcel_measure (k : string) (payload : json) : option json :=
  match first_parcel payload with Some pc => parcel_value k pc | None => None end.

(** A container whose weight the export left out (the parser reads 0.0),
    a parcel of no volume for the second carrier, and a pallet product
    without containers. *)
Definition zero_weight_shipment : Shipment :=
  shipment_of DHL "102" None [container_of 0%float 0.004%float "PKT"].

Definition zero_volume_pn_shipment : Shipment :=
  shipment_of POSTNORD "19" None [container_of 5.5%float 0%float "PC"].

Definition pallet_without_containers : Shipment :=
  shipment_of DHL "210" None [].

(** *** A concrete environment: the libraries above, a clock that starts at
    2026-02-19 12:00:00 and moves one second per reading, a printer without
    a document queue, and the server given as argument. *)

Definition demo_env (srv : list request -> request -> http_outcome) : Env :=
  {| py_float := parse_decimal;
     b64decode := b64_decode;
     py_repr := fun _ => "<object>";
     clock := fun n => float_of_Z (1771502400 + Z.of_nat n);
     strftime := fun _ => "20260219_120000";
     today_iso := fun _ => "2026-02-19";
     server := srv;
     printer_label := fun _ _ _ => Ok true;
     printer_document := fun _ _ _ => Ok false;
     send_tracking_email := fun _ _ _ _ _ => Ok true |}.

Definition unreachable_server : list request -> request -> http_outcome :=
  fun _ _ => NetFail (Exn OtherError "Connection refused").

Definition val (k v : string) : Element :=
  Elem "val" [("n", k)] (Some v) [].

(** [<container type="parcel"><val n="copies">1</val><val n="weight">2.50</val>
    <val n="packagecode">   </val></container>]: the package code is there
    and blank, as a fixed-width export pads it. *)
Definition blank_code_container : Element :=
  Elem "container" [("type", "parcel")] None
       [val "copies" "1"; val "weight" "2.50"; val "packagecode" "   "].

(** The same container without the package code. *)
Definition codeless_container : Element :=
  Elem "container" [("type", "parcel")] None
       [val "copies" "1"; val "weight" "2.50"].

Definition document_of (srvid : string) (container : Element) : Element :=
  Elem "data" []  None
       [ Elem "receiver" [("rcvid", "1")] None
              [val "name" "Test AB"; val "address1" "Testgatan 1"; val "zipcode" "11122";
               val "city" "Stockholm"; val "country" "SE"];
         Elem "shipment" [("orderno", "ORD-001")] None
              [ val "from" "Avsandare"; val "reference" "REF-001";
                Elem "service" [("srvid", srvid)] None [];
                container ] ].

(** The report the design selects from a print answer: the first one whose
    type is "Label", and the first report when there is none. *)
Definition report_type (r : json) : json := default JNull (field "type" r).

Definition selected_report (reports : list json) : option json :=
  match List.find (fun r => json_is_str (report_type r) "Label") reports with
  | Some r => Some r
  | None => head reports
  end.

Definition is_dict (j : json) : bool :=
  match j with JDict _ => true | _ => false end.

Definition empty_content_message (endpoint : string) (report : json) : string :=
  "DHL " ++ endpoint ++ ": Report finns men 'content' är tomt. Report keys: " ++
  repr_keys (dict_keys report).

Definition no_reports_message (endpoint : string) (resp : response) : string :=
  "DHL " ++ endpoint ++ ": Svar 200 men inga reports. Response: " ++ str_take 200 (text resp).

(** *** Print answers *)

Definition report (ty content64 : string) : json :=
  JDict [ ("name", JStr "document.pdf"); ("content", JStr content64);
          ("contentType", JStr "application/pdf"); ("type", JStr ty);
          ("valid", JBool true) ].

Definition json_response (body : string) (j : json) : response :=
  {| status_code := 200; content_type := "application/json";
     content := list_byte_of_string body; text := body; json_body := Some j |}.

(** A shipment list first, the label second: "TElTVA==" is "LIST" and
    "TEFCRUw=" is "LABEL". *)
Definition two_reports_response : response :=
  json_response "{...}" (JDict [ ("reports", JList [ report "ShipmentList" "TElTVA==";
                                                     report "Label" "TEFCRUw=" ]) ]).

Definition no_reports_response : response :=
  json_response "{'reports': []}" (JDict [ ("reports", JList []) ]).

Definition pdf_response : response :=
  {| status_code := 200; content_type := "application/pdf";
     content := list_byte_of_string "%PDF-1.6"; text := "%PDF-1.6"; json_body := None |}.

(** The label report is there and its content is empty. *)
Definition empty_content_response : response :=
  json_response "{...}" (JDict [ ("reports", JList [ report "Label" EmptyString;
                                                     report "ShipmentList" "TElTVA==" ]) ]).

(** *** The two tiers of label retrieval, as the design names them *)

(** The request of the first tier: the cached creation response with the
    options flag that asks for a label. *)
Definition print_documents_request (self : DHLClient) (ti_data : json) : request :=
  mkRequest (base_url self ++ "/printapi/v1/print/printdocuments")
            (JDict [ ("shipment", ti_data); ("options", JDict [ ("label", JBool true) ]) ]).

(** The request of the second tier: the identifier alone. *)
Definition print_by_id_request (self : DHLClient) (shipment_id : string) : request :=
  mkRequest (base_url self ++ "/printapi/v1/print/printdocumentsbyid")
            (JDict [ ("transportInstructionId", JStr shipment_id);
                     ("options", JDict [ ("label", JBool true) ]) ]).

(** The request for the optional shipment list. *)
Definition shipment_list_request (self : DHLClient) (ti_data : json) : request :=
  mkRequest (base_url self ++ "/printapi/v1/print/printdocuments")
            (JDict [ ("shipment", ti_data);
                     ("options", JDict [ ("shipmentList", JBool true) ]) ]).

(** What a tier makes of the server's answer to its request: the call
    fails when the connection or the status does, or when no label can be
    read from the answer. *)
Definition label_of_answer (env : Env) (endpoint : string) (rq : request)
    (answer : http_outcome) : result bytes :=
  match answer with
  | NetFail e => Raise e
  | Reply r =>
      match raise_for_status (req_url rq) r with
      | Ok _ => _extract_label_from_response env r endpoint
      | Raise e => Raise e
      end
  end.

Definition empty_state : state :=
  {| fs := ∅; _ti_cache := ∅; http_log := []; events := []; ticks := 0 |}.

(** A creation response, cached under its identifier. *)
Definition sample_ti : json :=
  JDict [ ("id", JStr "12345"); ("pieces", JList [ JDict [ ("id", JList [JStr "BARCODE123"]) ] ]) ].

Definition cached_state : state :=
  {| fs := ∅; _ti_cache := {[ "12345" := sample_ti ]}; http_log := []; events := [];
     ticks := 0 |}.

Definition server_error : response :=
  {| status_code := 500; content_type := "text/plain"; content := [];
     text := EmptyString; json_body := None |}.

(** A server whose print-documents endpoint is down and whose
    print-by-id endpoint answers with a label. *)
Definition by_id_only_server : list request -> request -> http_outcome :=
  fun _ rq =>
    if String.eqb (req_url rq) (base_url client ++ "/printapi/v1/print/printdocumentsbyid")
    then Reply two_reports_response
    else Reply server_error.

(** *** Lock markers *)

(** The lock marker [process_file] leaves when it enters the file, and the
    state after the atomic creation and after the reclaim of a stale
    marker (the reclaim reads the clock once). *)
Definition fresh_lock (env : Env) (t : nat) : fnode := mkNode (FBytes []) (clock env t).

Definition lock_created (env : Env) (filepath : path) (st : state) : state :=
  set_fs (<[lock_path_of filepath := fresh_lock env (ticks st)]> (fs st)) st.

Definition lock_reclaimed (env : Env) (filepath : path) (st : state) : state :=
  mkState (<[lock_path_of filepath := fresh_lock env (S (ticks st))]>
             (delete (lock_path_of filepath) (fs st)))
          (_ti_cache st) (http_log st) (events st) (S (ticks st)).

(** The age of a marker at a reading of the clock, and the staleness test
    [age > 300]. *)
Definition lock_age (env : Env) (st : state) (nd : fnode) : float :=
  PrimFloat.sub (clock env (ticks st)) (st_mtime nd).

Definition stale (env : Env) (st : state) (nd : fnode) : bool :=
  PrimFloat.ltb 300%float (lock_age env st nd).

(** *** Event consumers *)

(** The orchestrator with a consumer that never raises in place of its
    own. *)
Definition quiet (self : ShipmentOrchestrator) : ShipmentOrchestrator :=
  {| dhl := dhl self; done_dir := done_dir self; error_dir := error_dir self;
     label_cache := label_cache self;
     on_event := option_map (fun _ => (fun _ _ => None) : callback) (on_event self) |}.

(** Two runs agree when they give the same result and leave the same
    state; their logs may differ. *)
Definition same {A : Type} (o1 o2 : outcome A) : Prop :=
  res o1 = res o2 /\ post o1 = post o2.

Definition Same {A : Type} (m1 m2 : M A) : Prop := forall st, same (m1 st) (m2 st).

(** *** Per-shipment isolation, as the design states it *)










(** *** An export of two shipments, of which the carrier refuses the second *)

Definition shipment_elem (orderno : string) : Element :=
  Elem "shipment" [("orderno", orderno)] None
       [ val "from" "Avsandare"; val "reference" orderno;
         Elem "service" [("srvid", "DHL:102")] None [];
         Elem "container" [("type", "parcel")] None
              [val "copies" "1"; val "weight" "2.50"; val "volume" "0.004";
               val "packagecode" "PKT"] ].

Definition two_shipments : Element :=
  Elem "data" [] None
       [ Elem "receiver" [("rcvid", "1")] None
              [val "name" "Test AB"; val "address1" "Testgatan 1"; val "zipcode" "11122";
               val "city" "Stockholm"; val "country" "SE"];
         shipment_elem "ORD-A";
         shipment_elem "ORD-B" ].

Definition creation_response : response :=
  json_response "{...}"
    (JDict [ ("status", JStr "Succes");
             ("transportInstruction",
                JDict [ ("id", JStr "2906212275");
                        ("pieces", JList [ JDict [ ("id", JList [JStr "373221512524402940"]) ] ]) ]) ]).

Definition label_response : response :=
  json_response "{...}" (JDict [ ("reports", JList [ report "Label" "TEFCRUw=" ]) ]).

Definition create_url : string :=
  base_url client ++ "/transportinstructionapi/v1/transportinstruction/sendtransportinstruction".

(** The carrier creates the first shipment it is asked for and answers 500
    to every later creation; it prints what it is asked to print. *)
Definition second_creation_fails : list request -> request -> http_outcome :=
  fun sent rq =>
    if String.eqb (req_url rq) create_url then
      if existsb (fun r => String.eqb (req_url r) create_url) sent
      then Reply server_error else Reply creation_response
    else Reply label_response.

Definition always_creates : list request -> request -> http_outcome :=
  fun _ rq =>
    if String.eqb (req_url rq) create_url then Reply creation_response
    else Reply label_response.

(** A consumer that raises on every shipment_ok event. *)
Definition crashing_consumer : callback :=
  fun _ ev =>
    match ev with
    | shipment_ok _ _ _ => Some (Exn OtherError "status window is gone")
    | _ => None
    end.

Definition orchestrator : ShipmentOrchestrator :=
  {| dhl := client; done_dir := "done"; error_dir := "error"; label_cache := "labels";
     on_event := Some crashing_consumer |}.

Definition order_file : path := mkPath "in" "order.xml".

Definition order_node : fnode := mkNode (FXml (Some two_shipments)) 1771502000%float.

Definition inbox_state : state :=
  {| fs := {[ order_file := order_node ]}; _ti_cache := ∅; http_log := []; events := [];
     ticks := 0 |}.

(** The same inbox with a lock marker written [age] seconds before the
    first reading of the clock. *)
Definition locked_state (age : Z) : state :=
  {| fs := {[ order_file := order_node;
              mkPath "in" "order.lock" := mkNode (FBytes []) (float_of_Z (1771502400 - age)) ]};
     _ti_cache := ∅; http_log := []; events := []; ticks := 0 |}.

Definition failing_env : Env := demo_env second_creation_fails.

Definition two_parsed : list Shipment :=
  Eval vm_compute in
    match parse_root failing_env two_shipments with Ok l => l | Raise _ => [] end.

Definition by_id_env : Env := demo_env by_id_only_server.

Definition creating_env : Env := demo_env always_creates.

(** ** Further specification-level definitions *)

(** The receiver of a shipment element: its own when it has one, the
    document's otherwise. *)
Definition resolved_receiver (root ship_elem : Element) : option Receiver :=
  match find "receiver" ship_elem with
  | Some r => Some (_parse_receiver r)
  | None => option_map _parse_receiver (find "receiver" root)
  end.

(** A shipment with other containers. *)
Definition with_containers (cs : list Container) (s : Shipment) : Shipment :=
  {| order_no := order_no s; sender_name := sender_name s; reference := reference s;
     term_code := term_code s; service := service s; receiver := receiver s;
     containers := cs; notifications := notifications s;
     delivery_instruction := delivery_instruction s |}.

(** The translation of an addon code to the carrier's vocabulary. *)
Definition translate_addon (a : string) : string :=
  default a (assoc_get a ADDON_MAPPING).

(** The first report of a given type that has a content. *)
Definition first_document (doc_type : string) (reports : list json) : option json :=
  List.find
    (fun r => json_is_str (report_type r) doc_type
              && truthy (default (JStr EmptyString) (field "content" r)))
    reports.

(** The sample shipment with the notification addon, and its payload. *)
Definition avis_shipment : Shipment :=
  {| order_no := "107739-132888"; sender_name := "Ernst P AB";
     reference := "107739-132888"; term_code := "S";
     service := Some {| carrier := DHL; product_code := "104"; addon := "AVIS";
                        raw_srvid := "DHL:104:AVIS"; booking := None |};
     receiver := Some sample_receiver;
     containers := [sample_container];
     notifications := [];
     delivery_instruction := EmptyString |}.

Definition avis_payload : json :=
  Eval vm_compute in payload_of (_build_transport_instruction client "2026-11-04" avis_shipment).

(** The three dimensions of a container, by the name of their field. *)
Definition dimensions : list (string * (Container -> float)) :=
  [ ("length", length); ("width", width); ("height", height) ].

(** *** Creation, as a function of the carrier's answer *)

(** The tracking number read from a creation response: the first
    identifier of the first piece, else its barcode, else nothing. *)
Definition tracking_of (ti : json) : result json :=
  rbind (dict_get ti "pieces" (JList [])) (fun pieces =>
  if truthy pieces then
    rbind (index0 pieces) (fun p0 =>
    rbind (dict_get p0 "id" (JList [])) (fun piece_ids =>
    if truthy piece_ids && is_list piece_ids then index0 piece_ids
    else dict_get p0 "barcodeId" (JStr EmptyString)))
  else Ok (JStr EmptyString)).

(** What [create_shipment] makes of the answer to its request: the
    identifier, the tracking number and the response object to cache. *)
Definition creation_of_answer (env : Env) (url : string) (answer : http_outcome)
  : result (string * json * json) :=
  match answer with
  | NetFail e => Raise e
  | Reply r =>
      rbind (raise_for_status url r) (fun _ =>
      rbind (response_json r) (fun data =>
      rbind (dict_get data "transportInstruction" data) (fun ti =>
      rbind (dict_get ti "id" (JStr EmptyString)) (fun tid =>
      rbind (tracking_of ti) (fun tr => Ok (py_str env tid, tr, ti))))))
  end.

Definition creation_url (self : DHLClient) : string :=
  base_url self ++ "/transportinstructionapi/v1/transportinstruction/sendtransportinstruction".

(** The state after one more reading of the clock. *)
Definition ticked (st : state) : state :=
  mkState (fs st) (_ti_cache st) (http_log st) (events st) (S (ticks st)).

(** What [get_all_documents] makes of the answer to its second request:
    the shipment list when one can be read from it, nothing otherwise. *)
Definition shipment_list_of_answer (env : Env) (rq : request) (answer : http_outcome)
  : option bytes :=
  match answer with
  | NetFail _ => None
  | Reply r =>
      match raise_for_status (req_url rq) r with
      | Ok _ =>
          match _extract_document_from_response env r "ShipmentList" with
          | Ok found => found
          | Raise _ => None
          end
      | Raise _ => None
      end
  end.

(** The payload of the sample shipment on the day of the concrete
    environment. *)
Definition created_payload : json :=
  Eval vm_compute in payload_of (_build_transport_instruction client "2026-02-19" sample_shipment).





(** The events a consumer receives: none when no consumer is registered. *)
Definition emitted (self : ShipmentOrchestrator) (evs : list event) : list event :=
  match on_event self with Some _ => evs | None => [] end.

(** A carrier that creates and prints, and whose pickup endpoint is
    down. *)
Definition pickup_refused : list request -> request -> http_outcome :=
  fun log rq =>
    if String.eqb (req_url rq)
         (base_url client ++ "/pickuprequestapi/v1/pickuprequest/pickuprequest")
    then Reply server_error
    else always_creates log rq.

Definition refusing_env : Env := demo_env pickup_refused.

(** ** The second carrier, creation ([carriers/postnord.py]) *)

Module PostNord.

(** [create_shipment] returns [(shipment_id, tracking_number, label_data,
    label_format)]; booking and label come in one call. *)
Definition create_shipment (env : Env) (self : PostNordClient) (shipment : Shipment)
  : M (json * json * bytes * string) :=
  let label_format := "pdf" in
  payload <- lift (_build_booking_payload self shipment label_format) ;;
  let url := pn_base_url self ++ "/shipment/v3/booking" in
  resp <- session_post env url payload ;;
  lift (raise_for_status url resp) ;;
  data <- lift (response_json resp) ;;
  shipments <- lift (dict_get data "shipments" (JList [JDict []])) ;;
  first_shipment <- (if truthy shipments then lift (index0 shipments) else ret (JDict [])) ;;
  items <- lift (dict_get first_shipment "items" (JList [])) ;;
  found <-
    (if truthy items then
       item <- lift (index0 items) ;;
       tracking <- lift (dict_get item "itemId" (JStr EmptyString)) ;;
       label_b64 <- lift (dict_get item "labelData" (JStr EmptyString)) ;;
       label_data <- (if truthy label_b64 then lift (py_b64decode env label_b64)
                      else ret []) ;;
       ret (tracking, label_data)
     else ret (JStr EmptyString, [])) ;;
  shipment_id <- lift (dict_get first_shipment "shipmentId" (JStr EmptyString)) ;;
  ret (shipment_id, fst found, snd found, label_format).

End PostNord.

Definition booking_url (self : PostNordClient) : string :=
  pn_base_url self ++ "/shipment/v3/booking".

(** ** The folder watcher ([watcher.py]) *)

(** [str.lower] on ASCII text. *)
Definition lower_char (c : ascii) : ascii :=
  let n := nat_of_ascii c in
  if ((65 <=? n)%nat && (n <=? 90)%nat) then ascii_of_nat (n + 32) else c.

Fixpoint lower (s : string) : string :=
  match s with
  | EmptyString => EmptyString
  | String c r => String (lower_char c) (lower r)
  end.

(** What the handler finds at its successive looks at the file, one after
    each sleep: nothing when the file is not there, its size otherwise.  The
    writer of the file is outside the program. *)
Definition polls : Type := nat -> option Z.

Definition vanished (filepath : path) : exn :=
  Exn FileNotFoundError ("Filen försvann: " ++ path_str filepath).

(** Python's [TimeoutError], a class the model does not tell from the
    other subclasses of [Exception]. *)
Definition never_stable (filepath : path) : exn :=
  Exn OtherError ("Filen stabiliserades aldrig: " ++ path_str filepath).

(** The [for _ in range(10)] loop of [_wait_for_stability], with [rounds]
    rounds to go, the next look being the [i]-th. *)
Fixpoint stability_loop (obs : polls) (filepath : path) (rounds i : nat) (prev_size : Z)
  : result unit :=
  match rounds with
  | O => Raise (never_stable filepath)
  | S rounds' =>
      match obs i with
      | None => Raise (vanished filepath)
      | Some current_size =>
          if (current_size =? prev_size) && (0 <? current_size) then Ok tt
          else stability_loop obs filepath rounds' (S i) current_size
      end
  end.

Definition _wait_for_stability (obs : polls) (filepath : path) : result unit :=
  stability_loop obs filepath 10 0 (-1).

Record FileSystemEvent := mkFileSystemEvent { is_directory : bool; src_path : path }.

Definition is_FileNotFoundError (e : exn) : bool :=
  match exn_cls e with FileNotFoundError => true | _ => false end.

(** [on_created], given the set [_processing] and returning it as the
    handler leaves it.  Both [except] clauses only log, so the [finally]
    clause runs on every path and the method returns. *)
Definition on_created (env : Env) (orchestrator : ShipmentOrchestrator) (obs : polls)
    (_processing : gset string) (event : FileSystemEvent) : M (gset string) :=
  if is_directory event then ret _processing
  else
    let filepath := src_path event in
    if negb (String.eqb (lower (suffix (name filepath))) ".xml") then ret _processing
    else if bool_decide (name filepath ∈ _processing) then ret _processing
    else
      let added := _processing ∪ {[ name filepath ]} in
      try_except
        (lift (_wait_for_stability obs filepath) ;;
         process_file env orchestrator filepath ;;
         ret tt)
        (fun e =>
           if is_FileNotFoundError e
           then log WARNING ("Filen försvann innan bearbetning: " ++ name filepath)
           else log ERROR ("Ohanterat fel för " ++ name filepath ++ ": " ++ exn_msg e)) ;;
      ret (added ∖ {[ name filepath ]}).

(** The loop of [process_existing_files] over the files found at start. *)
Fixpoint process_existing_files (env : Env) (orchestrator : ShipmentOrchestrator)
    (existing : list path) : M unit :=
  match existing with
  | [] => ret tt
  | filepath :: rest =>
      try_except
        (process_file env orchestrator filepath ;; ret tt)
        (fun e => log ERROR ("Fel vid bearbetning av befintlig fil " ++ name filepath ++
                             ": " ++ exn_msg e)) ;;
      process_existing_files env orchestrator rest
  end.

(** *** Watching: sample observations *)

(** A file that grows for two looks and then rests at 2048 bytes. *)
Definition settling : polls :=
  fun i => Some (match i with O => 512 | S O => 1024 | _ => 2048 end).

(** A file that is there and stays empty. *)
Definition staying_empty : polls := fun _ => Some 0.

(** *** Booking with the second carrier: sample data *)

(** A carrier that accepts every request and answers with an empty
    object. *)
Definition empty_answer : list request -> request -> http_outcome :=
  fun _ _ => Reply (json_response "{}" (JDict [])).

Definition empty_answer_env : Env := demo_env empty_answer.

Definition pn_shipment : Shipment :=
  shipment_of POSTNORD "19" None [sample_container].

Definition pn_payload : json :=
  Eval vm_compute in payload_of (_build_booking_payload pn_client pn_shipment "pdf").

(** *** Reading a creation payload *)

(** The [i]-th party of a creation payload and the postal code of a
    party. *)
Definition party (i : nat) (payload : json) : option json :=
  match field "parties" payload with
  | Some (JList l) => nth_error l i
  | _ => None
  end.

Definition postal_code (p : json) : option json :=
  match field "address" p with
  | Some a => field "postalCode" a
  | None => None
  end.

Definition consignee_postal_code (payload : json) : option json :=
  match party 1 payload with
  | Some c => postal_code c
  | None => None
  end.

(** *** The response cache over time *)

(** Every identifier cached in [st] is still cached in [st']. *)
Definition cache_kept (st st' : state) : Prop :=
  forall k, is_Some (_ti_cache st !! k) -> is_Some (_ti_cache st' !! k).

Definition Keeps {A : Type} (m : M A) : Prop :=
  forall st, cache_kept st (post (m st)).

(** The inbox with the sample response already in the cache. *)
Definition cached_inbox : state :=
  {| fs := {[ order_file := order_node ]}; _ti_cache := {[ "12345" := sample_ti ]};
     http_log := []; events := []; ticks := 0 |}.

(** * Properties *)

(** ** Strings *)



(** ** Service codes *)


(** ** Postal codes *)


(** ** Floating-point comparisons *)

Lemma Prim2SF_not_nan (v : float) : PrimFloat.is_nan v = false -> Prim2SF v <> S754_nan.
Proof.
  intros Hn. unfold Prim2SF. rewrite Hn.
  destruct (PrimFloat.is_zero v); [discriminate|].
  destruct (PrimFloat.is_infinity v); [discriminate|].
  destruct (Z.frexp v). destruct (shr_fexp _ _ _ _ _). destruct (shr_m _); discriminate.
Qed.

(** A number that is not below or equal to zero is above it, unless it is
    not a number at all. *)
Lemma not_leb_zero_ltb (v : float) :
  PrimFloat.is_nan v = false -> PrimFloat.leb v 0%float = false ->
  PrimFloat.ltb 0%float v = true.
Proof.
  intros Hn. pose proof (Prim2SF_not_nan v Hn) as Hnn.
  rewrite leb_spec, ltb_spec.
  replace (Prim2SF 0%float) with (S754_zero false) by reflexivity.
  destruct (Prim2SF v) as [s|s| |s m e]; simpl; try discriminate; try congruence;
    destruct s; simpl; try discriminate; auto.
Qed.


(** ** The DHL creation payload *)

(** The builder needs a service and a receiver, and nothing more. *)
Lemma build_transport_instruction_total (self : DHLClient) (today : string) (s : Shipment) :
  is_Some (service s) -> is_Some (receiver s) ->
  exists p, _build_transport_instruction self today s = Ok p.
Proof.
  intros [svc Hs] [r Hr]. unfold _build_transport_instruction. rewrite Hs, Hr.
  eexists. reflexivity.
Qed.

(** C3, as amended: the shippingDate of a built payload is the pickup date
    of the shipment's booking record whenever there is such a record with a
    non-empty date, whether or not the record asks for a pickup, and today's
    date otherwise. *)
Theorem shipping_date_rule (self : DHLClient) (today : string) (s : Shipment) (p : json) :
  _build_transport_instruction self today s = Ok p ->
  exists svc,
    service s = Some svc
    /\ field "shippingDate" p =
       Some (JStr match booking svc with
                  | Some b => if str_empty (pickup_date b) then today else pickup_date b
                  | None => today
                  end).
Proof.
  unfold _build_transport_instruction.
  destruct (service s) as [svc|]; [|discriminate].
  destruct (receiver s) as [r|]; [|discriminate].
  intros [= <-]. exists svc. split; [reflexivity|].
  cbn [field assoc_get String.eqb Ascii.eqb Bool.eqb].
  destruct (booking svc) as [b|]; [|reflexivity].
  destruct (str_empty (pickup_date b)); reflexivity.
Qed.

Lemma shipping_date_rule_witness :
  _build_transport_instruction client "2026-11-04" sample_shipment = Ok sample_payload
  /\ exists svc,
       service sample_shipment = Some svc
       /\ field "shippingDate" sample_payload =
          Some (JStr match booking svc with
                     | Some b => if str_empty (pickup_date b) then "2026-11-04" else pickup_date b
                     | None => "2026-11-04"
                     end).
Proof.
  split; [reflexivity|].
  apply (shipping_date_rule client "2026-11-04" sample_shipment sample_payload).
  reflexivity.
Defined.

(** C3, the claim as stated fails: a booking record that carries a date but
    does not request a pickup still sets the shipping date, where the claim
    asks for today's date (here 2026-11-04). *)
Lemma shipping_date_ignores_pickup_flag :
  (exists svc b,
     service unrequested_pickup_shipment = Some svc /\ booking svc = Some b
     /\ pickup_booking b = false /\ pickup_date b = "2026-02-19")
  /\ exists p,
       _build_transport_instruction client "2026-11-04" unrequested_pickup_shipment = Ok p
       /\ field "shippingDate" p = Some (JStr "2026-02-19")
       /\ field "shippingDate" p <> Some (JStr "2026-11-04").
Proof.
  split.
  - do 2 eexists. repeat split; reflexivity.
  - eexists. split; [reflexivity|]. split; [reflexivity|]. discriminate.
Qed.

(** C4, as amended: a DHL creation payload carries the volume of the first
    container raised to 0.001 when it is zero or negative, so the volume
    sent is above zero unless it is NaN; the weight
    is the first container's weight as it is (nothing raises a zero or
    negative weight); without containers the payload carries weight 1.0,
    volume 0.001 and the package type of the product's default if it has
    one, "PKT" otherwise.  The PostNord payload carries weight and volume
    unchanged, and volume 0.0 without containers. *)
Theorem payload_weight_volume (self : DHLClient) (pn : PostNordClient)
    (today fmt : string) (s : Shipment) (svc : ServiceInfo) (r : Receiver) :
  service s = Some svc -> receiver s = Some r ->
  let w := match head (containers s) with Some c => weight c | None => 1.0%float end in
  let v := match head (containers s) with Some c => volume c | None => 0.001%float end in
  let v' := if PrimFloat.leb v 0%float then 0.001%float else v in
  exists p q,
    _build_transport_instruction self today s = Ok p
    /\ _build_booking_payload pn s fmt = Ok q
    /\ field "totalVolume" p = Some (JFloat v')
    /\ piece_field "volume" p = Some (JFloat v')
    /\ (PrimFloat.is_nan v = false -> PrimFloat.ltb 0%float v' = true)
    /\ (PrimFloat.leb v 0%float = true -> v' = 0.001%float)
    /\ field "totalWeight" p = Some (JFloat w)
    /\ piece_field "weight" p = Some (JFloat w)
    /\ (containers s = [] ->
        w = 1.0%float /\ v' = 0.001%float
        /\ piece_field "packageType" p =
           Some (JStr (default "PKT" (assoc_get (product_code svc) PACKAGE_TYPE_DEFAULTS))))
    /\ parcel_measure "weight" q = Some (JFloat w)
    /\ parcel_measure "volume" q =
       Some (JFloat match head (containers s) with Some c => volume c | None => 0%float end).
Proof.
  intros Hs Hr w v v'.
  unfold _build_transport_instruction, _build_booking_payload. rewrite Hs, Hr.
  do 2 eexists. split; [reflexivity|]. split; [reflexivity|].
  split_and!; try reflexivity.
  - intros Hn. subst v'. destruct (PrimFloat.leb v 0%float) eqn:Hle; [reflexivity|].
    apply not_leb_zero_ltb; assumption.
  - intros Hle. subst v'. rewrite Hle. reflexivity.
  - intros Hc. subst w v' v. rewrite Hc. split_and!; reflexivity.
Qed.

Lemma payload_weight_volume_witness :
  service sample_shipment = Some
    {| carrier := DHL; product_code := "102"; addon := EmptyString;
       raw_srvid := "DHL:102";
       booking := Some {| pickup_booking := true; pickup_date := "2026-02-19" |} |}
  /\ receiver sample_shipment = Some sample_receiver
  /\ exists p q,
       _build_transport_instruction client "2026-11-04" sample_shipment = Ok p
       /\ _build_booking_payload pn_client sample_shipment "pdf" = Ok q
       /\ field "totalVolume" p = Some (JFloat 0.004%float)
       /\ field "totalWeight" p = Some (JFloat 5.5%float).
Proof.
  split; [reflexivity|]. split; [reflexivity|].
  destruct (payload_weight_volume client pn_client "2026-11-04" "pdf" sample_shipment
              _ _ eq_refl eq_refl)
    as (p & q & Hp & Hq & Hv & _ & _ & _ & Hw & _).
  exists p, q. repeat split; assumption.
Defined.

(** C4, the claim as stated fails: a DHL payload carries a zero weight
    unchanged, the PostNord payload carries a zero volume unchanged and
    volume 0.0 without containers, and a pallet product without containers
    gets its own default package type instead of the generic one. *)
Lemma weight_volume_not_always_positive :
  (exists p,
     _build_transport_instruction client "2026-11-04" zero_weight_shipment = Ok p
     /\ field "totalWeight" p = Some (JFloat 0%float)
     /\ piece_field "weight" p = Some (JFloat 0%float)
     /\ positive (field "totalWeight" p) = false)
  /\ (exists q,
        _build_booking_payload pn_client zero_volume_pn_shipment "pdf" = Ok q
        /\ parcel_measure "volume" q = Some (JFloat 0%float)
        /\ positive (parcel_measure "volume" q) = false)
  /\ (exists q,
        _build_booking_payload pn_client (shipment_of POSTNORD "19" None []) "pdf" = Ok q
        /\ parcel_measure "volume" q = Some (JFloat 0%float)
        /\ positive (parcel_measure "volume" q) = false)
  /\ (exists p,
        _build_transport_instruction client "2026-11-04" pallet_without_containers = Ok p
        /\ piece_field "packageType" p = Some (JStr "701")
        /\ piece_field "packageType" p <> Some (JStr "PKT")).
Proof.
  repeat split; eexists; (split; [reflexivity|]); repeat split; try reflexivity; discriminate.
Qed.

(** A volume that is not a number ([float("nan")] reads it from the export)
    is neither raised nor above zero. *)
Example nan_volume_is_sent :
  exists p,
    _build_transport_instruction client "2026-11-04"
      (shipment_of DHL "102" None [container_of 5.5%float PrimFloat.nan "PKT"]) = Ok p
    /\ field "totalVolume" p = Some (JFloat PrimFloat.nan)
    /\ positive (field "totalVolume" p) = false.
Proof. eexists. split_and!; reflexivity. Qed.

(** ** Package codes *)

Lemma extract_fold_absent (k : string) (vs : list Element) (m : gmap string string) :
  Forall (fun v => val_key v <> k) vs ->
  foldl (fun m v => <[val_key v := val_text v]> m) m vs !! k = m !! k.
Proof.
  revert m. induction vs as [|v vs IH]; intros m Hall; [reflexivity|].
  inversion Hall as [|? ? Hv Hvs]; subst. cbn [foldl].
  rewrite IH by assumption. apply lookup_insert_ne. exact Hv.
Qed.

Lemma extract_fold_last (k : string) (pre post : list Element) (v : Element)
    (m : gmap string string) :
  val_key v = k -> Forall (fun u => val_key u <> k) post ->
  foldl (fun m v => <[val_key v := val_text v]> m) m (pre ++ v :: post)%list !! k
  = Some (val_text v).
Proof.
  intros Hk Hpost. rewrite foldl_app. cbn [foldl].
  rewrite extract_fold_absent by assumption. rewrite Hk. apply lookup_insert_eq.
Qed.

Lemma parse_container_package_code (env : Env) (e : Element) (c : Container) :
  _parse_container env e = Ok c ->
  package_code c = vals_get (_extract_vals (Some e)) "packagecode" "PC".
Proof.
  unfold _parse_container.
  destruct (float_of_str env _) as [fc|]; [|discriminate]. cbn [rbind].
  destruct (int_of_float fc) as [n|]; [|discriminate]. cbn [rbind].
  destruct (float_of_str env _) as [w|]; [|discriminate]. cbn [rbind].
  destruct (float_of_str env _) as [v|]; [|discriminate]. cbn [rbind].
  intros [= <-]. reflexivity.
Qed.

(** C9, as amended: a container read by the parser has package code "PC"
    when the export has no packagecode value, and otherwise the trimmed
    text of its last packagecode value, which is empty when that value is
    blank; the DHL payload takes the first container's code when it is not
    empty, and otherwise the product's default package type, or "PKT" when
    the product has none. *)
Theorem package_code_rule :
  (forall env e c,
     _parse_container env e = Ok c ->
     Forall (fun v => val_key v <> "packagecode") (findall "val" e) ->
     package_code c = "PC")
  /\ (forall env e c pre v post,
        _parse_container env e = Ok c ->
        findall "val" e = (pre ++ v :: post)%list ->
        val_key v = "packagecode" ->
        Forall (fun u => val_key u <> "packagecode") post ->
        package_code c = val_text v)
  /\ (forall self today s c p,
        head (containers s) = Some c ->
        _build_transport_instruction self today s = Ok p ->
        exists svc,
          service s = Some svc
          /\ piece_field "packageType" p =
             Some (JStr (if str_empty (package_code c)
                         then default "PKT" (assoc_get (product_code svc) PACKAGE_TYPE_DEFAULTS)
                         else package_code c)))
  /\ (exists c, _parse_container (demo_env unreachable_server) codeless_container = Ok c
                /\ package_code c = "PC").
Proof.
  split_and!.
  - intros env e c Hc Hall. rewrite (parse_container_package_code env e c Hc).
    unfold vals_get, _extract_vals.
    change (foldl _ ∅ (findall "val" e)) with
      (foldl (fun m v => <[val_key v := val_text v]> m) (∅ : gmap string string)
             (findall "val" e)).
    rewrite extract_fold_absent by assumption. reflexivity.
  - intros env e c pre v post Hc Hsplit Hk Hpost.
    rewrite (parse_container_package_code env e c Hc).
    unfold vals_get, _extract_vals.
    change (foldl _ ∅ (findall "val" e)) with
      (foldl (fun m v => <[val_key v := val_text v]> m) (∅ : gmap string string)
             (findall "val" e)).
    rewrite Hsplit, extract_fold_last by assumption. reflexivity.
  - intros self today s c p Hc. unfold _build_transport_instruction.
    destruct (service s) as [svc|]; [|discriminate].
    destruct (receiver s) as [r|]; [|discriminate].
    intros [= <-]. exists svc. split; [reflexivity|]. rewrite Hc.
    destruct (str_empty (package_code c)); reflexivity.
  - eexists. split; reflexivity.
Qed.

(** C9, the claim as stated fails: an export whose packagecode value is
    blank gives a container with an empty package code, and the payload of
    that shipment takes its package type from the product's default (here
    the pallet type of product 210) or from the generic "PKT". *)
Lemma blank_package_code_reaches_defaults :
  (exists s c,
     parse_root (demo_env unreachable_server) (document_of "DHL:210" blank_code_container)
     = Ok [s]
     /\ containers s = [c] /\ package_code c = EmptyString
     /\ exists p, _build_transport_instruction client "2026-11-04" s = Ok p
                  /\ piece_field "packageType" p = Some (JStr "701"))
  /\ (exists s c,
        parse_root (demo_env unreachable_server) (document_of "DHL:102" blank_code_container)
        = Ok [s]
        /\ containers s = [c] /\ package_code c = EmptyString
        /\ exists p, _build_transport_instruction client "2026-11-04" s = Ok p
                     /\ piece_field "packageType" p = Some (JStr "PKT")).
Proof.
  split; do 2 eexists; (split; [vm_compute; reflexivity|]);
    (split; [reflexivity|]); (split; [reflexivity|]);
    eexists; split; reflexivity.
Qed.

(** ** Reading a print answer *)

Lemma str_take_length (n : nat) (s : string) : (String.length (str_take n s) <= n)%nat.
Proof.
  revert s. induction n as [|n IH]; intros s; [reflexivity|].
  destruct s as [|c r]; simpl; [lia|]. specialize (IH r). lia.
Qed.

Lemma find_label_dicts (rs : list json) :
  forallb is_dict rs = true ->
  find_label rs = Ok (List.find (fun r => json_is_str (report_type r) "Label") rs).
Proof.
  induction rs as [|r rs IH]; intros Hall; [reflexivity|].
  cbn [forallb] in Hall. apply andb_prop in Hall as [Hr Hrs].
  destruct r as [| | | | | |kv]; try discriminate.
  cbn [find_label dict_get rbind List.find].
  change (report_type (JDict kv)) with (default JNull (assoc_get "type" kv)).
  destruct (json_is_str (default JNull (assoc_get "type" kv)) "Label"); [reflexivity|].
  apply IH. exact Hrs.
Qed.

Lemma selected_report_dict (rs : list json) (r : json) :
  forallb is_dict rs = true -> selected_report rs = Some r -> is_dict r = true.
Proof.
  unfold selected_report. intros Hall.
  destruct (List.find _ rs) as [r'|] eqn:Hf.
  - intros [= <-]. apply find_some in Hf as [Hin _].
    rewrite forallb_forall in Hall. apply Hall. exact Hin.
  - destruct rs as [|r0 rs']; [discriminate|]. intros [= <-].
    cbn [forallb] in Hall. apply andb_prop in Hall as [H _]. exact H.
Qed.

(** C6, as amended: a binary answer (application/pdf or
    application/octet-stream) is returned as it is; from a JSON answer with
    reports the code selects the first report whose type is "Label", or the
    first report when there is none, and returns its decoded content when
    that content is not empty, and raises when it is missing or empty,
    without looking at the other reports; a JSON answer without reports
    raises an error that carries the first 200 characters of the body. *)
Theorem extract_label_rule (env : Env) (resp : response) (endpoint : string) :
  let binary := str_in "application/pdf" (content_type resp)
                || str_in "application/octet-stream" (content_type resp) in
  (binary = true -> _extract_label_from_response env resp endpoint = Ok (content resp))
  /\ (forall kv,
        binary = false -> str_in "json" (content_type resp) = true ->
        json_body resp = Some (JDict kv) ->
        truthy (default (JList []) (assoc_get "reports" kv)) = false ->
        _extract_label_from_response env resp endpoint
        = Raise (Exn RuntimeError (no_reports_message endpoint resp))
        /\ (String.length (str_take 200 (text resp)) <= 200)%nat)
  /\ (forall kv rs r,
        binary = false -> str_in "json" (content_type resp) = true ->
        json_body resp = Some (JDict kv) ->
        assoc_get "reports" kv = Some (JList rs) -> forallb is_dict rs = true ->
        selected_report rs = Some r ->
        let c := default (JStr EmptyString) (field "content" r) in
        _extract_label_from_response env resp endpoint
        = if truthy c then py_b64decode env c
          else Raise (Exn RuntimeError (empty_content_message endpoint r)))
  /\ _extract_label_from_response (demo_env unreachable_server) two_reports_response
       "printdocuments" = Ok (list_byte_of_string "LABEL")
  /\ _extract_label_from_response (demo_env unreachable_server) pdf_response
       "printdocuments" = Ok (list_byte_of_string "%PDF-1.6")
  /\ _extract_label_from_response (demo_env unreachable_server) no_reports_response
       "printdocuments"
     = Raise (Exn RuntimeError
                "DHL printdocuments: Svar 200 men inga reports. Response: {'reports': []}").
Proof.
  intros binary. split_and!; try reflexivity.
  - intros Hb. unfold _extract_label_from_response. fold binary. rewrite Hb. reflexivity.
  - intros kv Hb Hj Hbody Hempty. split; [|apply str_take_length].
    unfold _extract_label_from_response. fold binary. rewrite Hb, Hj.
    unfold response_json. rewrite Hbody. cbn [rbind dict_get]. rewrite Hempty. reflexivity.
  - intros kv rs r Hb Hj Hbody Hreports Hdicts Hsel c.
    pose proof (selected_report_dict rs r Hdicts Hsel) as Hr.
    unfold _extract_label_from_response. fold binary. rewrite Hb, Hj.
    unfold response_json. rewrite Hbody. cbn [rbind dict_get]. rewrite Hreports.
    cbn [from_option id]. unfold selected_report in Hsel.
    destruct rs as [|r0 rs']; [cbn in Hsel; discriminate|].
    cbn [truthy negb iter rbind]. rewrite (find_label_dicts (r0 :: rs') Hdicts).
    cbn [rbind].
    assert (Hchosen : match List.find (fun r => json_is_str (report_type r) "Label")
                              (r0 :: rs') with
                      | Some r1 => Ok r1
                      | None => index0 (JList (r0 :: rs'))
                      end = Ok r).
    { destruct (List.find _ (r0 :: rs')) as [r1|]; cbn [index0 head] in *; congruence. }
    rewrite Hchosen. cbn [rbind].
    destruct r as [| | | | | |rkv]; try discriminate.
    cbn [dict_get rbind]. subst c. cbn [field dict_keys]. reflexivity.
Qed.

(** C6, the claim as stated fails: a JSON answer with a non-empty reports
    list whose label report has an empty content is not answered with that
    report's decoded content (no bytes at all are returned); the code
    raises. *)
Lemma empty_label_content_is_refused :
  str_in "json" (content_type empty_content_response) = true
  /\ json_body empty_content_response
     = Some (JDict [ ("reports", JList [ report "Label" EmptyString;
                                         report "ShipmentList" "TElTVA==" ]) ])
  /\ selected_report [ report "Label" EmptyString; report "ShipmentList" "TElTVA==" ]
     = Some (report "Label" EmptyString)
  /\ _extract_label_from_response (demo_env unreachable_server) empty_content_response
       "printdocuments"
     = Raise (Exn RuntimeError
                (empty_content_message "printdocuments" (report "Label" EmptyString)))
  /\ forall b, _extract_label_from_response (demo_env unreachable_server)
                 empty_content_response "printdocuments" <> Ok b.
Proof.
  split_and!; try reflexivity. intros b. discriminate.
Qed.

(** ** Label retrieval *)

Lemma print_documents_run (env : Env) (self : DHLClient) (ti : json) (st : state) :
  _print_documents env self ti st
  = mkOut (label_of_answer env "printdocuments" (print_documents_request self ti)
             (server env (http_log st) (print_documents_request self ti)))
          (add_request (print_documents_request self ti) st) [].
Proof.
  unfold _print_documents, print_documents_request, print_payload, label_of_answer,
    bind, session_post, lift.
  change (API_PATHS "print_documents") with "/printapi/v1/print/printdocuments".
  destruct (server env _ _) as [e|r]; cbn; [reflexivity|].
  destruct (raise_for_status _ r) as [[]|e]; cbn; reflexivity.
Qed.

Lemma print_documents_by_id_run (env : Env) (self : DHLClient) (sid : string) (st : state) :
  _print_documents_by_id env self sid st
  = mkOut (label_of_answer env "printdocumentsbyid" (print_by_id_request self sid)
             (server env (http_log st) (print_by_id_request self sid)))
          (add_request (print_by_id_request self sid) st) [].
Proof.
  unfold _print_documents_by_id, print_by_id_request, print_by_id_payload, label_of_answer,
    bind, session_post, lift.
  change (API_PATHS "print_by_id") with "/printapi/v1/print/printdocumentsbyid".
  destruct (server env _ _) as [e|r]; cbn; [reflexivity|].
  destruct (raise_for_status _ r) as [[]|e]; cbn; reflexivity.
Qed.

(** C2, as amended: [get_label] is two-tiered.  With a cached, non-empty
    creation response it posts that response to the print-documents
    endpoint with the label option and returns the label read from the
    answer; when that call fails, or when nothing is cached, it posts the
    identifier alone to the print-documents-by-id endpoint; when this call
    fails too it raises the label-unavailable error.  [get_all_documents],
    which the orchestrator calls, has one tier: without a cached response it
    raises at once and sends nothing, and a failure of its print-documents
    call is passed on without a request by identifier. *)
Theorem label_retrieval_tiers (env : Env) (self : DHLClient) (sid : string) (st : state) :
  let rq1 := print_documents_request self in
  let rq2 := print_by_id_request self sid in
  let tier2 (st1 : state) (o : outcome bytes) :=
    post o = add_request rq2 st1
    /\ match label_of_answer env "printdocumentsbyid" rq2 (server env (http_log st1) rq2) with
       | Ok b => res o = Ok b
       | Raise _ => res o = Raise (label_unavailable sid)
       end in
  match cached_ti st sid with
  | Some ti =>
      match label_of_answer env "printdocuments" (rq1 ti)
              (server env (http_log st) (rq1 ti)) with
      | Ok b =>
          res (get_label env self sid st) = Ok b
          /\ post (get_label env self sid st) = add_request (rq1 ti) st
          /\ exists sl,
               res (get_all_documents env self sid st) = Ok (b, sl)
               /\ post (get_all_documents env self sid st)
                  = add_request (shipment_list_request self ti) (add_request (rq1 ti) st)
      | Raise e =>
          tier2 (add_request (rq1 ti) st) (get_label env self sid st)
          /\ res (get_all_documents env self sid st) = Raise e
          /\ post (get_all_documents env self sid st) = add_request (rq1 ti) st
      end
  | None =>
      tier2 st (get_label env self sid st)
      /\ res (get_all_documents env self sid st) = Raise (no_cached_ti sid)
      /\ post (get_all_documents env self sid st) = st
  end.
Proof.
  intros rq1 rq2 tier2.
  unfold get_label, get_all_documents, bind, try_except, get_state, ret, log, raise.
  destruct (cached_ti st sid) as [ti|].
  - rewrite !print_documents_run. fold (rq1 ti).
    destruct (label_of_answer env "printdocuments" (rq1 ti) _) as [b|e].
    + cbn [res post logs]. split_and!; try reflexivity.
      unfold session_post, lift, shipment_list_request, print_payload.
      change (API_PATHS "print_documents") with "/printapi/v1/print/printdocuments".
      destruct (server env _ _) as [e|r]; [eexists; split; reflexivity|].
      destruct (raise_for_status _ r) as [[]|e]; [|eexists; split; reflexivity].
      destruct (_extract_document_from_response env r "ShipmentList") as [sl|e];
        eexists; split; reflexivity.
    + split_and!; try reflexivity.
      unfold tier2. rewrite print_documents_by_id_run. fold rq2.
      destruct (label_of_answer env "printdocumentsbyid" rq2 _) as [b|e2];
        split; reflexivity.
  - split_and!; try reflexivity.
    unfold tier2. rewrite print_documents_by_id_run. fold rq2.
    destruct (label_of_answer env "printdocumentsbyid" rq2 _) as [b|e2];
      split; reflexivity.
Qed.

(** ** Locking *)

Ltac run :=
  repeat progress
    (unfold bind, ret, raise, lift, get_state, modify, log,
       try_except, try_finally, try_except_exists;
     cbv beta iota zeta).

Lemma process_locked_releases (env : Env) (self : ShipmentOrchestrator) (filepath : path)
    (st : state) :
  fs (post (process_locked env self filepath st)) !! lock_path_of filepath = None.
Proof.
  unfold process_locked, try_finally.
  destruct (try_except _ _ st) as [r s l].
  unfold _release_lock, unlink_missing_ok. run. cbn [post fs set_fs].
  apply lookup_delete_eq.
Qed.

Lemma acquire_lock_absent (env : Env) (filepath : path) (st : state) :
  fs st !! lock_path_of filepath = None ->
  _acquire_lock env filepath st = mkOut (Ok true) (lock_created env filepath st) [].
Proof.
  intros Habs. unfold _acquire_lock, open_x. run. rewrite Habs. reflexivity.
Qed.

Lemma acquire_lock_present (env : Env) (filepath : path) (st : state) (nd : fnode) :
  fs st !! lock_path_of filepath = Some nd ->
  _acquire_lock env filepath st
  = if stale env st nd
    then mkOut (Ok true) (lock_reclaimed env filepath st)
               [(WARNING, "Tog bort gammal lockfil för " ++ name filepath)]
    else mkOut (Ok false)
               (mkState (fs st) (_ti_cache st) (http_log st) (events st) (S (ticks st))) [].
Proof.
  intros Hpre.
  unfold _acquire_lock, open_x, exists_, now, stat_mtime, unlink. run.
  rewrite Hpre. run. cbn [is_FileExistsError exn_cls]. run.
  rewrite Hpre. rewrite bool_decide_eq_true_2 by eauto. run.
  cbn [fs]. rewrite Hpre. run.
  unfold stale, lock_age.
  destruct (PrimFloat.ltb 300%float _); [|reflexivity].
  run. cbn [fs]. rewrite Hpre. run. cbn [fs set_fs]. rewrite lookup_delete_eq. run.
  reflexivity.
Qed.


(** C5: the lock marker is created when it is absent; a marker that is
    there and older than 300 seconds is removed and created again, and
    processing goes on; with a younger marker [process_file] returns False
    and leaves the files, the cache, the requests and the events as they
    were; and whenever the lock was taken, the marker is gone when
    [process_file] ends, whatever its result. *)
Theorem lock_protocol (env : Env) (self : ShipmentOrchestrator) (filepath : path)
    (st : state) :
  let lock := lock_path_of filepath in
  let run_file := process_file env self filepath st in
  match fs st !! lock with
  | None =>
      _acquire_lock env filepath st = mkOut (Ok true) (lock_created env filepath st) []
      /\ fs (lock_created env filepath st) !! lock = Some (fresh_lock env (ticks st))
      /\ res run_file = res (process_locked env self filepath (lock_created env filepath st))
      /\ post run_file = post (process_locked env self filepath (lock_created env filepath st))
      /\ fs (post run_file) !! lock = None
  | Some nd =>
      if stale env st nd then
        res (_acquire_lock env filepath st) = Ok true
        /\ post (_acquire_lock env filepath st) = lock_reclaimed env filepath st
        /\ fs (lock_reclaimed env filepath st) !! lock = Some (fresh_lock env (S (ticks st)))
        /\ res run_file
           = res (process_locked env self filepath (lock_reclaimed env filepath st))
        /\ post run_file
           = post (process_locked env self filepath (lock_reclaimed env filepath st))
        /\ fs (post run_file) !! lock = None
      else
        res (_acquire_lock env filepath st) = Ok false
        /\ res run_file = Ok false
        /\ fs (post run_file) = fs st
        /\ _ti_cache (post run_file) = _ti_cache st
        /\ http_log (post run_file) = http_log st
        /\ events (post run_file) = events st
        /\ fs (post run_file) !! lock = Some nd
  end.
Proof.
  intros lock run_file. subst run_file. unfold process_file. run.
  destruct (fs st !! lock) as [nd|] eqn:Hlock.
  - rewrite (acquire_lock_present env filepath st nd Hlock).
    destruct (stale env st nd).
    + pose proof (process_locked_releases env self filepath
                    (lock_reclaimed env filepath st)) as Hrel.
      destruct (process_locked env self filepath (lock_reclaimed env filepath st))
        as [r s l].
      cbn [res post logs] in *. split_and!; try reflexivity; [|exact Hrel].
      unfold lock_reclaimed. cbn [fs]. apply lookup_insert_eq.
    + cbn [res post logs fs _ti_cache http_log events]. split_and!; try reflexivity.
      exact Hlock.
  - rewrite (acquire_lock_absent env filepath st Hlock).
    pose proof (process_locked_releases env self filepath
                  (lock_created env filepath st)) as Hrel.
    destruct (process_locked env self filepath (lock_created env filepath st)) as [r s l].
    cbn [res post logs] in *. split_and!; try reflexivity; [|exact Hrel].
    unfold lock_created. cbn [fs set_fs]. apply lookup_insert_eq.
Qed.

(** ** Failing event consumers *)

Lemma Same_refl {A} (m : M A) : Same m m.
Proof. intros st. split; reflexivity. Qed.

Lemma Same_bind {A B} (m1 m2 : M A) (k1 k2 : A -> M B) :
  Same m1 m2 -> (forall a, Same (k1 a) (k2 a)) -> Same (bind m1 k1) (bind m2 k2).
Proof.
  intros Hm Hk st. unfold bind. specialize (Hm st).
  destruct (m1 st) as [r1 s1 l1], (m2 st) as [r2 s2 l2].
  destruct Hm as [Hr Hs]. cbn [res post] in Hr, Hs. subst r2 s2.
  destruct r1 as [a|e]; [|split; reflexivity].
  specialize (Hk a s1). destruct (k1 a s1) as [r1' s1' l1'], (k2 a s1) as [r2' s2' l2'].
  exact Hk.
Qed.

Lemma Same_try_except {A} (m1 m2 : M A) (h1 h2 : exn -> M A) :
  Same m1 m2 -> (forall e, Same (h1 e) (h2 e)) -> Same (try_except m1 h1) (try_except m2 h2).
Proof.
  intros Hm Hh st. unfold try_except. specialize (Hm st).
  destruct (m1 st) as [r1 s1 l1], (m2 st) as [r2 s2 l2].
  destruct Hm as [Hr Hs]. cbn [res post] in Hr, Hs. subst r2 s2.
  destruct r1 as [a|e]; [split; reflexivity|].
  specialize (Hh e s1). destruct (h1 e s1) as [r1' s1' l1'], (h2 e s1) as [r2' s2' l2'].
  exact Hh.
Qed.

Lemma Same_try_finally {A} (m1 m2 : M A) (f : M unit) :
  Same m1 m2 -> Same (try_finally m1 f) (try_finally m2 f).
Proof.
  intros Hm st. unfold try_finally. specialize (Hm st).
  destruct (m1 st) as [r1 s1 l1], (m2 st) as [r2 s2 l2].
  destruct Hm as [Hr Hs]. cbn [res post] in Hr, Hs. subst r2 s2.
  destruct (f s1) as [[[]|e] s l]; split; reflexivity.
Qed.

Lemma notify_quiet (self : ShipmentOrchestrator) (ev : event) :
  Same (_notify self ev) (_notify (quiet self) ev).
Proof.
  intros st. unfold _notify, quiet. cbn [on_event].
  destruct (on_event self) as [cb|]; cbn [option_map]; [|split; reflexivity].
  run. destruct (cb (events st) ev); split; reflexivity.
Qed.

Lemma process_single_quiet (env : Env) (self : ShipmentOrchestrator) (s : Shipment) :
  Same (_process_single env self s) (_process_single env (quiet self) s).
Proof.
  unfold _process_single.
  destruct (service s) as [svc|]; [|apply Same_refl].
  destruct (carrier svc); [|apply Same_refl].
  change (dhl (quiet self)) with (dhl self).
  change (label_cache (quiet self)) with (label_cache self).
  repeat (apply Same_bind; [apply Same_refl | intros ?]).
  apply notify_quiet.
Qed.

Lemma process_shipments_quiet (env : Env) (self : ShipmentOrchestrator)
    (ss : list Shipment) (all_ok : bool) :
  Same (process_shipments env self ss all_ok) (process_shipments env (quiet self) ss all_ok).
Proof.
  revert all_ok. induction ss as [|s ss IH]; intros all_ok; [apply Same_refl|].
  cbn [process_shipments]. apply Same_bind; [|intros ok; apply IH].
  apply Same_try_except.
  - apply Same_bind; [apply process_single_quiet | intros ?; apply Same_refl].
  - intros e. apply Same_bind; [apply Same_refl | intros ?].
    apply Same_bind; [apply notify_quiet | intros ?; apply Same_refl].
Qed.

Lemma process_locked_quiet (env : Env) (self : ShipmentOrchestrator) (fp : path) :
  Same (process_locked env self fp) (process_locked env (quiet self) fp).
Proof.
  unfold process_locked. apply Same_try_finally. apply Same_try_except.
  - apply Same_bind; [apply Same_refl | intros ss].
    apply Same_bind; [apply process_shipments_quiet | intros all_ok].
    apply Same_bind; [|intros ?; apply Same_refl].
    destruct all_ok.
    + apply Same_bind; [apply Same_refl | intros ?; apply notify_quiet].
    + apply Same_bind; [apply Same_refl | intros ?; apply notify_quiet].
  - intros e. apply Same_bind; [apply Same_refl | intros ?].
    apply Same_bind; [apply Same_refl | intros ?].
    apply Same_bind; [apply notify_quiet | intros ?; apply Same_refl].
Qed.

(** C10: an exception of the registered event consumer is caught inside
    [_notify], which logs a warning and returns; the consumer is called
    with the same events in the same order, and [process_file] returns the
    same value and leaves the same files, cache, requests and events as
    with a consumer that never raises. *)
Theorem failing_consumer_is_contained (env : Env) (self : ShipmentOrchestrator) :
  (forall ev st,
     res (_notify self ev st) = Ok tt
     /\ match on_event self with
        | Some cb =>
            post (_notify self ev st) = add_event ev st
            /\ logs (_notify self ev st)
               = match cb (events st) ev with
                 | Some e => [(WARNING, "Event-callback fel: " ++ exn_msg e)]
                 | None => []
                 end
        | None => post (_notify self ev st) = st
        end)
  /\ (forall filepath st,
        res (process_file env self filepath st) = res (process_file env (quiet self) filepath st)
        /\ post (process_file env self filepath st)
           = post (process_file env (quiet self) filepath st))
  /\ (forall ss all_ok st,
        res (process_shipments env self ss all_ok st)
        = res (process_shipments env (quiet self) ss all_ok st)
        /\ post (process_shipments env self ss all_ok st)
           = post (process_shipments env (quiet self) ss all_ok st)).
Proof.
  split_and!.
  - intros ev st. unfold _notify. destruct (on_event self) as [cb|]; [|split; reflexivity].
    run. destruct (cb (events st) ev); split_and!; reflexivity.
  - intros filepath st.
    assert (H : Same (process_file env self filepath) (process_file env (quiet self) filepath)).
    { unfold process_file. apply Same_bind; [apply Same_refl | intros locked].
      destruct locked; [apply process_locked_quiet | apply Same_refl]. }
    exact (H st).
  - intros ss all_ok st. exact (process_shipments_quiet env self ss all_ok st).
Qed.

(** ** Frames of the carrier calls *)























(** ** Path names *)








(** ** The loop over the shipments *)








(** The export of two shipments, end to end: the first shipment is booked
    and reported although the consumer raises on its event, the second is
    refused by the carrier and reported, and the file is archived as failed
    with its sidecar. *)
Example two_shipments_second_fails :
  let o := process_file failing_env orchestrator order_file inbox_state in
  res o = Ok false
  /\ events (post o)
     = [ shipment_ok "ORD-A" (JStr "373221512524402940") "DHL";
         shipment_error "ORD-B" ("Server Error for url: " ++ create_url);
         file_error "order.xml" "Delvis misslyckad bearbetning" ]
  /\ fs (post o) !! mkPath "error" "20260219_120000_order.xml" = Some order_node
  /\ (exists nd, fs (post o) !! mkPath "error" "20260219_120000_order.error.txt" = Some nd
                 /\ fcontent nd = FText (error_text "20260219_120000" "order.xml"
                                           "Delvis misslyckad bearbetning"))
  /\ fs (post o) !! order_file = None
  /\ fs (post o) !! mkPath "in" "order.lock" = None
  /\ is_Some (fs (post o) !! mkPath "labels" "ORD-A.pdf").
Proof.
  cbv zeta. split_and!; try (vm_compute; reflexivity).
  - eexists. split; vm_compute; reflexivity.
  - vm_compute. eexists. reflexivity.
Qed.

(** C2, the claim as stated fails for the retrieval the orchestrator uses:
    with a server whose print-by-id endpoint would deliver the label,
    [get_all_documents] fails without a cached response and sends nothing,
    and fails with a cached response when the print-documents call fails,
    having sent that one request only; [get_label] obtains the label in
    both situations. *)
Lemma get_all_documents_has_one_tier :
  cached_ti empty_state "12345" = None
  /\ res (get_all_documents by_id_env client "12345" empty_state)
     = Raise (no_cached_ti "12345")
  /\ http_log (post (get_all_documents by_id_env client "12345" empty_state)) = []
  /\ res (get_label by_id_env client "12345" empty_state) = Ok (list_byte_of_string "LABEL")
  /\ cached_ti cached_state "12345" = Some sample_ti
  /\ res (get_all_documents by_id_env client "12345" cached_state)
     = Raise (Exn HTTPError
                ("Server Error for url: " ++ req_url (print_documents_request client sample_ti)))
  /\ http_log (post (get_all_documents by_id_env client "12345" cached_state))
     = [print_documents_request client sample_ti]
  /\ res (get_label by_id_env client "12345" cached_state) = Ok (list_byte_of_string "LABEL")
  /\ http_log (post (get_label by_id_env client "12345" cached_state))
     = [print_documents_request client sample_ti; print_by_id_request client "12345"].
Proof.
  split_and!; vm_compute; reflexivity.
Qed.

(** A marker of 10 seconds and one of exactly 300 seconds make
    [process_file] skip the file and leave it where it is; a marker of 301
    seconds is reclaimed and the file is processed. *)
Example lock_marker_ages :
  stale creating_env (locked_state 10) (mkNode (FBytes []) (float_of_Z (1771502400 - 10)))
  = false
  /\ res (process_file creating_env orchestrator order_file (locked_state 10)) = Ok false
  /\ fs (post (process_file creating_env orchestrator order_file (locked_state 10)))
     = fs (locked_state 10)
  /\ res (process_file creating_env orchestrator order_file (locked_state 300)) = Ok false
  /\ fs (post (process_file creating_env orchestrator order_file (locked_state 300)))
       !! order_file = Some order_node
  /\ res (process_file creating_env orchestrator order_file (locked_state 301)) = Ok true
  /\ fs (post (process_file creating_env orchestrator order_file (locked_state 301)))
       !! mkPath "done" "20260219_120000_order.xml" = Some order_node
  /\ fs (post (process_file creating_env orchestrator order_file (locked_state 301)))
       !! mkPath "in" "order.lock" = None
  /\ events (post (process_file creating_env orchestrator order_file (locked_state 301)))
     = [ shipment_ok "ORD-A" (JStr "373221512524402940") "DHL";
         shipment_ok "ORD-B" (JStr "373221512524402940") "DHL";
         file_done "order.xml" ].
Proof.
  split_and!; vm_compute; reflexivity.
Qed.

(** * Further properties of the code *)

(** ** Trimming *)

Lemma rstrip_idem (s : string) : rstrip (rstrip s) = rstrip s.
Proof.
  induction s as [|c r IH]; [reflexivity|]. cbn [rstrip].
  destruct (is_space c && str_empty (rstrip r)) eqn:H; [reflexivity|].
  cbn [rstrip]. rewrite IH, H. reflexivity.
Qed.

Lemma lstrip_head (s : string) :
  lstrip s = EmptyString \/ exists c r, lstrip s = String c r /\ is_space c = false.
Proof.
  induction s as [|c r IH]; [left; reflexivity|]. cbn [lstrip].
  destruct (is_space c) eqn:H; [exact IH|]. right. exists c, r. split; [reflexivity | exact H].
Qed.

Lemma lstrip_id (c : ascii) (r : string) : is_space c = false -> lstrip (String c r) = String c r.
Proof. intros H. cbn [lstrip]. rewrite H. reflexivity. Qed.

Lemma strip_idem (s : string) : strip (strip s) = strip s.
Proof.
  unfold strip. destruct (lstrip_head s) as [->|(c & r & -> & Hc)]; [reflexivity|].
  cbn [rstrip]. rewrite Hc. cbn [andb]. rewrite lstrip_id by exact Hc.
  cbn [rstrip]. rewrite Hc. cbn [andb]. rewrite rstrip_idem. reflexivity.
Qed.

(** ** The export parser *)

Lemma extract_vals_fold (e : Element) :
  _extract_vals (Some e)
  = foldl (fun m v => <[val_key v := val_text v]> m) (∅ : gmap string string)
          (findall "val" e).
Proof. reflexivity. Qed.

Lemma extract_fold_trimmed (vs : list Element) (m : gmap string string) (k t : string) :
  (forall u, m !! k = Some u -> strip u = u) ->
  foldl (fun m v => <[val_key v := val_text v]> m) m vs !! k = Some t -> strip t = t.
Proof.
  revert m. induction vs as [|v vs IH]; intros m Hm; cbn [foldl]; [apply Hm|].
  apply IH. intros u. destruct (decide (val_key v = k)) as [<-|Hne].
  - rewrite lookup_insert_eq. intros [= <-]. apply strip_idem.
  - rewrite lookup_insert_ne by exact Hne. apply Hm.
Qed.

Lemma extract_fold_keeps (vs : list Element) (m : gmap string string) (k : string) :
  is_Some (m !! k) ->
  is_Some (foldl (fun m v => <[val_key v := val_text v]> m) m vs !! k).
Proof.
  revert m. induction vs as [|v vs IH]; intros m Hm; cbn [foldl]; [exact Hm|].
  apply IH. destruct (decide (val_key v = k)) as [<-|Hne].
  - rewrite lookup_insert_eq. eauto.
  - rewrite lookup_insert_ne by exact Hne. exact Hm.
Qed.

Lemma extract_fold_present (vs : list Element) (m : gmap string string) (v : Element) :
  In v vs ->
  is_Some (foldl (fun m v => <[val_key v := val_text v]> m) m vs !! val_key v).
Proof.
  revert m. induction vs as [|w vs IH]; intros m Hin; [destruct Hin|].
  cbn [foldl]. destruct Hin as [->|Hin]; [|apply IH; exact Hin].
  apply extract_fold_keeps. rewrite lookup_insert_eq. eauto.
Qed.

(** X1: the dictionary of the [<val n="key">] children of an element keeps,
    for a key that occurs several times, the text of the last occurrence;
    every value is trimmed; a key is absent exactly when no child carries
    it, and then [vals.get] answers its default. *)
Theorem extract_vals_last_wins (e : Element) (k : string) :
  (Forall (fun v => val_key v <> k) (findall "val" e) <->
   _extract_vals (Some e) !! k = None)
  /\ (_extract_vals (Some e) !! k = None ->
      forall dflt, vals_get (_extract_vals (Some e)) k dflt = dflt)
  /\ (forall pre v post,
        findall "val" e = (pre ++ v :: post)%list ->
        val_key v = k -> Forall (fun u => val_key u <> k) post ->
        _extract_vals (Some e) !! k = Some (val_text v)
        /\ forall dflt, vals_get (_extract_vals (Some e)) k dflt = val_text v)
  /\ (forall t, _extract_vals (Some e) !! k = Some t -> strip t = t).
Proof.
  unfold vals_get. rewrite extract_vals_fold. split_and!.
  - split.
    + intros Hall. rewrite extract_fold_absent by exact Hall. apply lookup_empty.
    + intros Hnone. apply Forall_forall. intros v Hin Hk.
      apply list_elem_of_In in Hin.
      pose proof (extract_fold_present (findall "val" e) ∅ v Hin) as [t Ht].
      rewrite Hk in Ht. congruence.
  - intros Hnone dflt. rewrite Hnone. reflexivity.
  - intros pre v post Hsplit Hk Hpost.
    assert (H : foldl (fun m v => <[val_key v := val_text v]> m)
                  (∅ : gmap string string) (findall "val" e) !! k = Some (val_text v)).
    { rewrite Hsplit. apply extract_fold_last; assumption. }
    split; [exact H|]. intros dflt. rewrite H. reflexivity.
  - intros t. apply extract_fold_trimmed. intros u. rewrite lookup_empty. discriminate.
Qed.

Lemma rmap_ok {A B} (f : A -> result B) (l : list A) (ys : list B) :
  rmap f l = Ok ys <-> Forall2 (fun x y => f x = Ok y) l ys.
Proof.
  revert ys. induction l as [|x l IH]; intros ys; cbn [rmap].
  - split; [intros [= <-]; constructor | intros H; inversion H; reflexivity].
  - destruct (f x) as [y|e] eqn:Hx; cbn [rbind].
    + destruct (rmap f l) as [ys'|e] eqn:Hl; cbn [rbind].
      * split.
        -- intros [= <-]. constructor; [exact Hx | apply IH; reflexivity].
        -- intros H. inversion H as [|? y' ? ys'' Hy Hrest]; subst.
           apply IH in Hrest. congruence.
      * split; [discriminate|]. intros H. inversion H as [|? y' ? ys'' Hy Hrest]; subst.
        apply IH in Hrest. discriminate.
    + split; [discriminate|]. intros H. inversion H; subst. congruence.
Qed.

Lemma rmap_raise {A B} (f : A -> result B) (l : list A) (e : exn) :
  rmap f l = Raise e <->
  exists pre x post,
    l = (pre ++ x :: post)%list
    /\ Forall (fun y => exists v, f y = Ok v) pre
    /\ f x = Raise e.
Proof.
  induction l as [|x l IH]; cbn [rmap].
  - split; [discriminate|]. intros (pre & y & post & H & _). destruct pre; discriminate.
  - destruct (f x) as [y|e'] eqn:Hx; cbn [rbind].
    + destruct (rmap f l) as [ys|e'] eqn:Hl; cbn [rbind].
      * split; [discriminate|]. intros (pre & z & post & Hsplit & Hpre & Hz).
        destruct pre as [|p pre]; cbn in Hsplit; injection Hsplit as -> ->; [congruence|].
        inversion Hpre; subst.
        assert (H : @Ok (list B) ys = Raise e); [|discriminate].
        apply IH. eauto 6.
      * split.
        -- intros [= ->]. destruct IH as [IH _].
           destruct (IH eq_refl) as (pre & z & post & -> & Hpre & Hz).
           exists (x :: pre), z, post. split_and!; [reflexivity | | exact Hz].
           constructor; [eauto | exact Hpre].
        -- intros (pre & z & post & Hsplit & Hpre & Hz).
           destruct pre as [|p pre]; cbn in Hsplit; injection Hsplit as -> ->; [congruence|].
           inversion Hpre; subst.
           apply IH. eauto 6.
    + split.
      * intros [= ->]. exists [], x, l. split_and!; [reflexivity | constructor | exact Hx].
      * intros (pre & z & post & Hsplit & Hpre & Hz).
        destruct pre as [|p pre]; cbn in Hsplit; injection Hsplit as -> ->.
        -- congruence.
        -- inversion Hpre as [|? ? [v Hv] ?]; subst. congruence.
Qed.

Lemma parse_shipment_ok (env : Env) (root e : Element) (s : Shipment) :
  _parse_shipment env e (resolved_receiver root e) = Ok s ->
  order_no s = strip (elem_get e "orderno" EmptyString)
  /\ (exists svc, _parse_service (find "service" e) = Ok svc /\ service s = Some svc)
  /\ receiver s = resolved_receiver root e
  /\ rmap (_parse_container env) (findall "container" e) = Ok (containers s)
  /\ notifications s = _parse_notifications (find "ufonline" e).
Proof.
  unfold _parse_shipment.
  destruct (_parse_service (find "service" e)) as [svc|err]; [|discriminate]. cbn [rbind].
  destruct (rmap (_parse_container env) (findall "container" e)) as [cs|err];
    [|discriminate]. cbn [rbind].
  intros [= <-]. cbn. split_and!; try reflexivity. exists svc. split; reflexivity.
Qed.

(** X2: the shipments the parser returns correspond one to one, in
    document order, to the shipment elements of the root: each carries the
    trimmed order number of its element, a service, the receiver of its own
    element or else the receiver of the document, one container per
    container element and the notifications of its options block. *)
Theorem parse_root_shape (env : Env) (root : Element) (ss : list Shipment) :
  parse_root env root = Ok ss ->
  List.length ss = List.length (findall "shipment" root)
  /\ Forall2
       (fun e s =>
          order_no s = strip (elem_get e "orderno" EmptyString)
          /\ (exists svc, _parse_service (find "service" e) = Ok svc /\ service s = Some svc)
          /\ receiver s = resolved_receiver root e
          /\ List.length (containers s) = List.length (findall "container" e)
          /\ Forall2 (fun c k => _parse_container env c = Ok k)
                     (findall "container" e) (containers s)
          /\ notifications s = _parse_notifications (find "ufonline" e))
       (findall "shipment" root) ss.
Proof.
  intros Hparse.
  assert (H : Forall2 (fun e s => _parse_shipment env e (resolved_receiver root e) = Ok s)
                (findall "shipment" root) ss).
  { apply rmap_ok. exact Hparse. }
  split; [symmetry; eapply Forall2_length; exact H|].
  eapply Forall2_impl; [exact H|]. intros e s Hs. cbv beta in Hs.
  destruct (parse_shipment_ok env root e s Hs) as (Ho & Hsvc & Hr & Hc & Hn).
  apply rmap_ok in Hc.
  split_and!; try assumption. symmetry. eapply Forall2_length; exact Hc.
Qed.

(** The two shipments of the sample export share the receiver of the
    document. *)
Lemma parse_root_shape_witness :
  parse_root failing_env two_shipments = Ok two_parsed
  /\ List.length two_parsed = List.length (findall "shipment" two_shipments)
  /\ Forall2
       (fun e s =>
          order_no s = strip (elem_get e "orderno" EmptyString)
          /\ (exists svc, _parse_service (find "service" e) = Ok svc /\ service s = Some svc)
          /\ receiver s = resolved_receiver two_shipments e
          /\ List.length (containers s) = List.length (findall "container" e)
          /\ Forall2 (fun c k => _parse_container failing_env c = Ok k)
                     (findall "container" e) (containers s)
          /\ notifications s = _parse_notifications (find "ufonline" e))
       (findall "shipment" two_shipments) two_parsed.
Proof.
  split; [vm_compute; reflexivity|].
  apply (parse_root_shape failing_env two_shipments two_parsed).
  vm_compute; reflexivity.
Defined.

(** X3: parsing is all or nothing.  The parser fails exactly when some
    shipment element fails, with the exception of the first such element in
    document order, and no shipment of the elements before it is returned;
    a shipment element fails exactly when its service code is refused or,
    the service being accepted, one of its containers cannot be read. *)
Theorem parse_root_all_or_nothing (env : Env) (root : Element) (e : exn) :
  (parse_root env root = Raise e <->
   exists pre x post,
     findall "shipment" root = (pre ++ x :: post)%list
     /\ Forall (fun y => exists s, _parse_shipment env y (resolved_receiver root y) = Ok s) pre
     /\ _parse_shipment env x (resolved_receiver root x) = Raise e)
  /\ (forall x recv,
        _parse_shipment env x recv = Raise e <->
        _parse_service (find "service" x) = Raise e
        \/ (exists svc, _parse_service (find "service" x) = Ok svc)
           /\ rmap (_parse_container env) (findall "container" x) = Raise e).
Proof.
  split.
  - unfold parse_root. apply rmap_raise.
  - intros x recv. unfold _parse_shipment.
    destruct (_parse_service (find "service" x)) as [svc|err]; cbn [rbind].
    + destruct (rmap (_parse_container env) (findall "container" x)) as [cs|err];
        cbn [rbind].
      * split; [discriminate|]. intros [H|[_ H]]; discriminate.
      * split; [intros [= ->]; right; eauto|]. intros [H|[_ H]]; congruence.
    + split; [intros [= ->]; left; reflexivity|]. intros [H|[[svc H] _]]; congruence.
Qed.




(** ** The creation payloads *)

(** X5: only the first container of a shipment reaches a carrier.  The DHL
    payload and the PostNord payload of a shipment with several containers
    are those of the shipment with its first container alone, so that the
    piece count, the weight and the volume sent are those of that
    container. *)
Theorem only_first_container_is_sent (self : DHLClient) (pn : PostNordClient)
    (today fmt : string) (s : Shipment) (c : Container) (rest : list Container) :
  _build_transport_instruction self today (with_containers (c :: rest) s)
  = _build_transport_instruction self today (with_containers [c] s)
  /\ _build_booking_payload pn (with_containers (c :: rest) s) fmt
     = _build_booking_payload pn (with_containers [c] s) fmt
  /\ (forall p,
        _build_transport_instruction self today (with_containers (c :: rest) s) = Ok p ->
        field "totalNumberOfPieces" p = Some (JInt (copies c))
        /\ piece_field "numberOfPieces" p = Some (JInt (copies c))
        /\ field "totalWeight" p = Some (JFloat (weight c))
        /\ piece_field "weight" p = Some (JFloat (weight c))
        /\ field "totalVolume" p = piece_field "volume" p
        /\ exists pc, field "pieces" p = Some (JList [pc])).
Proof.
  split_and!; try reflexivity.
  intros p. unfold _build_transport_instruction. cbn [service with_containers receiver].
  destruct (service s) as [svc|]; [|discriminate].
  destruct (receiver s) as [r|]; [|discriminate].
  intros [= <-]. split_and!; try reflexivity. eexists. reflexivity.
Qed.

Lemma assoc_get_addon (a v : string) :
  assoc_get a ADDON_MAPPING = Some v ->
  assoc_get v ADDON_MAPPING = Some v.
Proof.
  unfold ADDON_MAPPING. cbn [assoc_get].
  repeat match goal with
         | |- context [String.eqb ?k a] =>
             destruct (String.eqb_spec k a) as [_|_]; [intros [= <-]; reflexivity|]
         end.
  discriminate.
Qed.

(** X6: the additional services of a DHL payload are empty exactly when
    the service has no addon; otherwise they hold one entry, true, under the
    addon code translated by the fixed table, a code outside the table being
    passed on as it is.  The translation is idempotent: a code of the
    carrier's vocabulary is left alone. *)
Theorem addon_translation (self : DHLClient) (today : string) (s : Shipment) (p : json) :
  _build_transport_instruction self today s = Ok p ->
  (exists svc,
     service s = Some svc
     /\ field "additionalServices" p
        = Some (JDict (if str_empty (addon svc) then []
                       else [(translate_addon (addon svc), JBool true)])))
  /\ (forall a, translate_addon (translate_addon a) = translate_addon a)
  /\ (forall a, assoc_get a ADDON_MAPPING = None -> translate_addon a = a)
  /\ translate_addon "AVIS" = "notification".
Proof.
  unfold _build_transport_instruction.
  destruct (service s) as [svc|]; [|discriminate].
  destruct (receiver s) as [r|]; [|discriminate].
  intros [= <-]. split_and!.
  - exists svc. split; [reflexivity|]. cbn [field assoc_get String.eqb Ascii.eqb Bool.eqb].
    unfold translate_addon. destruct (str_empty (addon svc)); reflexivity.
  - intros a. unfold translate_addon.
    destruct (assoc_get a ADDON_MAPPING) as [v|] eqn:Ha; cbn [default from_option id].
    + rewrite (assoc_get_addon a v Ha). reflexivity.
    + rewrite Ha. reflexivity.
  - intros a Ha. unfold translate_addon. rewrite Ha. reflexivity.
  - reflexivity.
Qed.

Lemma addon_translation_witness :
  _build_transport_instruction client "2026-11-04" avis_shipment = Ok avis_payload
  /\ field "additionalServices" avis_payload = Some (JDict [("notification", JBool true)]).
Proof.
  split; [reflexivity|].
  destruct (addon_translation client "2026-11-04" avis_shipment avis_payload eq_refl)
    as [(svc & Hsvc & Hfield) _].
  injection Hsvc as <-. exact Hfield.
Defined.

Lemma parse_container_dimensions (env : Env) (e : Element) (c : Container) :
  _parse_container env e = Ok c ->
  length c = 0%float /\ width c = 0%float /\ height c = 0%float.
Proof.
  unfold _parse_container.
  destruct (float_of_str env _) as [fc|]; [|discriminate]. cbn [rbind].
  destruct (int_of_float fc) as [n|]; [|discriminate]. cbn [rbind].
  destruct (float_of_str env _) as [w|]; [|discriminate]. cbn [rbind].
  destruct (float_of_str env _) as [v|]; [|discriminate]. cbn [rbind].
  intros [= <-]. split_and!; reflexivity.
Qed.

(** X7: the piece of a DHL payload carries a length, a width or a height
    only when the first container has that dimension above zero; the parser
    reads no dimension from the export, so the payload of a parsed shipment
    never carries one. *)
Theorem dimensions_rule (self : DHLClient) (today : string) (s : Shipment) (p : json) :
  _build_transport_instruction self today s = Ok p ->
  (forall k get,
     In (k, get) dimensions ->
     piece_field k p
     = match head (containers s) with
       | Some c => if PrimFloat.ltb 0%float (get c) then Some (JFloat (get c)) else None
       | None => None
       end)
  /\ (forall env e c k get,
        head (containers s) = Some c -> _parse_container env e = Ok c ->
        In (k, get) dimensions -> piece_field k p = None).
Proof.
  intros Hbuild.
  assert (Hrule : forall k get,
            In (k, get) dimensions ->
            piece_field k p
            = match head (containers s) with
              | Some c => if PrimFloat.ltb 0%float (get c) then Some (JFloat (get c)) else None
              | None => None
              end).
  { revert Hbuild. unfold _build_transport_instruction.
    destruct (service s) as [svc|]; [|discriminate].
    destruct (receiver s) as [r|]; [|discriminate].
    intros [= <-] k get Hin.
    unfold piece_field, first_piece. cbn [field assoc_get String.eqb Ascii.eqb Bool.eqb first].
    destruct (head (containers s)) as [c|].
    - cbv [dimensions In] in Hin.
      destruct Hin as [[= <- <-]|[[= <- <-]|[[= <- <-]|[]]]];
        destruct (PrimFloat.ltb 0%float (length c)), (PrimFloat.ltb 0%float (width c)),
          (PrimFloat.ltb 0%float (height c)); reflexivity.
    - cbv [dimensions In] in Hin.
      destruct Hin as [[= <- <-]|[[= <- <-]|[[= <- <-]|[]]]]; reflexivity. }
  split; [exact Hrule|].
  intros env e c k get Hc Hparse Hin. rewrite (Hrule k get Hin), Hc.
  destruct (parse_container_dimensions env e c Hparse) as (Hl & Hw & Hh).
  cbv [dimensions In] in Hin.
  destruct Hin as [[= <- <-]|[[= <- <-]|[[= <- <-]|[]]]];
    rewrite ?Hl, ?Hw, ?Hh; reflexivity.
Qed.

Lemma dimensions_rule_witness :
  _build_transport_instruction client "2026-11-04" sample_shipment = Ok sample_payload
  /\ piece_field "length" sample_payload = Some (JFloat 20%float)
  /\ piece_field "height" sample_payload = Some (JFloat 10%float).
Proof.
  split; [reflexivity|].
  destruct (dimensions_rule client "2026-11-04" sample_shipment sample_payload eq_refl)
    as [Hrule _].
  split.
  - exact (Hrule "length" length (or_introl eq_refl)).
  - exact (Hrule "height" height (or_intror (or_intror (or_introl eq_refl)))).
Defined.

(** ** Creating a shipment *)

Lemma create_shipment_run (env : Env) (self : DHLClient) (s : Shipment) (st : state) :
  create_shipment env self s st
  = match _build_transport_instruction self (today_iso env (clock env (ticks st))) s with
    | Raise e => mkOut (Raise e) (ticked st) []
    | Ok payload =>
        let rq := mkRequest (creation_url self) payload in
        match creation_of_answer env (creation_url self) (server env (http_log st) rq) with
        | Ok (sid, tr, ti) =>
            mkOut (Ok (sid, tr))
                  (set_cache (<[sid := ti]> (_ti_cache st)) (add_request rq (ticked st))) []
        | Raise e => mkOut (Raise e) (add_request rq (ticked st)) []
        end
    end.
Proof.
  unfold create_shipment, now, session_post, creation_of_answer, tracking_of, creation_url.
  change (API_PATHS "transport_instruction")
    with "/transportinstructionapi/v1/transportinstruction/sendtransportinstruction".
  run. fold (ticked st).
  destruct (_build_transport_instruction self _ s) as [payload|e]; run; [|reflexivity].
  cbn [http_log ticked].
  destruct (server env _ _) as [e|r]; run; [reflexivity|].
  destruct (raise_for_status _ r) as [[]|e]; cbn [rbind]; run; [|reflexivity].
  destruct (response_json r) as [data|e]; cbn [rbind]; run; [|reflexivity].
  destruct (dict_get data "transportInstruction" data) as [ti|e]; cbn [rbind]; run;
    [|reflexivity].
  destruct (dict_get ti "id" _) as [tid|e]; cbn [rbind]; run; [|reflexivity].
  destruct (dict_get ti "pieces" _) as [pieces|e]; cbn [rbind]; run; [|reflexivity].
  destruct (truthy pieces); run; [|reflexivity].
  destruct (index0 pieces) as [p0|e]; cbn [rbind]; run; [|reflexivity].
  destruct (dict_get p0 "id" _) as [ids|e]; cbn [rbind]; run; [|reflexivity].
  destruct (truthy ids && is_list ids); run.
  - destruct (index0 ids) as [x|e]; reflexivity.
  - destruct (dict_get p0 "barcodeId" _) as [x|e]; reflexivity.
Qed.



(** X9: on an accepted creation answer whose response object is a
    dictionary, [create_shipment] returns as tracking number the first
    identifier of the first piece; when that piece has no non-empty list of
    identifiers, its barcode, or the empty string without one; and the empty
    string when the response has no pieces. *)
Theorem tracking_number_rule (env : Env) (self : DHLClient) (s : Shipment) (st : state)
    (payload : json) (r : response) (kv tkv : list (string * json)) :
  _build_transport_instruction self (today_iso env (clock env (ticks st))) s = Ok payload ->
  server env (http_log st) (mkRequest (creation_url self) payload) = Reply r ->
  raise_for_status (creation_url self) r = Ok tt ->
  json_body r = Some (JDict kv) ->
  default (JDict kv) (assoc_get "transportInstruction" kv) = JDict tkv ->
  let sid := py_str env (default (JStr EmptyString) (assoc_get "id" tkv)) in
  let pieces := default (JList []) (assoc_get "pieces" tkv) in
  let out := res (create_shipment env self s st) in
  (truthy pieces = false -> out = Ok (sid, JStr EmptyString))
  /\ (forall pkv rest, pieces = JList (JDict pkv :: rest) ->
        let ids := default (JList []) (assoc_get "id" pkv) in
        (forall x more, ids = JList (x :: more) -> out = Ok (sid, x))
        /\ ((forall x more, ids <> JList (x :: more)) ->
            out = Ok (sid, default (JStr EmptyString) (assoc_get "barcodeId" pkv)))).
Proof.
  intros Hb Hs Hst Hj Hti sid pieces out. subst out.
  rewrite create_shipment_run, Hb. cbv zeta. rewrite Hs.
  unfold creation_of_answer, response_json. rewrite Hst, Hj. cbn [rbind dict_get].
  rewrite Hti. cbn [rbind dict_get]. unfold tracking_of. cbn [dict_get rbind].
  fold pieces. fold sid. split.
  - intros ->. reflexivity.
  - intros pkv rest ->. cbn [truthy index0 rbind dict_get]. split.
    + intros x more ->. reflexivity.
    + intros Hno.
      destruct (default (JList []) (assoc_get "id" pkv)) as [| | | | |[|x more]|];
        cbn [truthy is_list andb]; rewrite ?andb_false_r; try reflexivity.
      exfalso. exact (Hno x more eq_refl).
Qed.

Lemma tracking_number_rule_witness :
  res (create_shipment creating_env client sample_shipment empty_state)
  = Ok ("2906212275", JStr "373221512524402940").
Proof.
  pose (piece := [ ("id", JList [JStr "373221512524402940"]) ]).
  pose (tkv := [ ("id", JStr "2906212275"); ("pieces", JList [ JDict piece ]) ]).
  pose (kv := [ ("status", JStr "Succes"); ("transportInstruction", JDict tkv) ]).
  refine (proj1 (proj2 (tracking_number_rule creating_env client sample_shipment empty_state
                          created_payload creation_response kv tkv _ _ _ _ _)
                   piece [] _)
            (JStr "373221512524402940") [] _);
    reflexivity.
Defined.

(** ** Retrieving the documents *)

Lemma get_all_documents_run (env : Env) (self : DHLClient) (sid : string) (st : state)
    (ti : json) :
  cached_ti st sid = Some ti ->
  get_all_documents env self sid st
  = let rq1 := print_documents_request self ti in
    let rq2 := shipment_list_request self ti in
    match label_of_answer env "printdocuments" rq1 (server env (http_log st) rq1) with
    | Raise e => mkOut (Raise e) (add_request rq1 st) []
    | Ok label =>
        mkOut (Ok (label,
                   shipment_list_of_answer env rq2
                     (server env (http_log st ++ [rq1])%list rq2)))
              (add_request rq2 (add_request rq1 st)) []
    end.
Proof.
  intros Hc. unfold get_all_documents. run. rewrite Hc. run.
  rewrite print_documents_run. cbv zeta.
  destruct (label_of_answer env "printdocuments" _ _) as [label|e]; [|reflexivity].
  unfold session_post, shipment_list_request, shipment_list_of_answer, print_payload.
  change (API_PATHS "print_documents") with "/printapi/v1/print/printdocuments".
  run. cbn [http_log add_request req_url].
  destruct (server env _ _) as [e|r]; run; [reflexivity|].
  destruct (raise_for_status _ r) as [[]|e]; run; [|reflexivity].
  destruct (_extract_document_from_response env r "ShipmentList") as [found|e]; reflexivity.
Qed.

(** X10: with a cached, non-empty response object, [get_all_documents]
    sends the label request first; it succeeds exactly when a label can be
    read from the answer to that request, and then it has sent a second
    request, for the shipment list, whose failure of any kind only leaves
    the list out; when the label call fails, the error is passed on and no
    second request is sent.  Files, cache and events are left as they
    were. *)
Theorem shipment_list_is_optional (env : Env) (self : DHLClient) (sid : string)
    (st : state) (ti : json) :
  cached_ti st sid = Some ti ->
  let rq1 := print_documents_request self ti in
  let rq2 := shipment_list_request self ti in
  let o := get_all_documents env self sid st in
  fs (post o) = fs st /\ _ti_cache (post o) = _ti_cache st /\ events (post o) = events st
  /\ match label_of_answer env "printdocuments" rq1 (server env (http_log st) rq1) with
     | Ok label =>
         http_log (post o) = (http_log st ++ [rq1; rq2])%list
         /\ exists sl,
              res o = Ok (label, sl)
              /\ sl = shipment_list_of_answer env rq2 (server env (http_log st ++ [rq1])%list rq2)
              /\ (forall e, server env (http_log st ++ [rq1])%list rq2 = NetFail e -> sl = None)
              /\ (forall r e, server env (http_log st ++ [rq1])%list rq2 = Reply r ->
                              raise_for_status (req_url rq2) r = Raise e -> sl = None)
              /\ (forall r e, server env (http_log st ++ [rq1])%list rq2 = Reply r ->
                              _extract_document_from_response env r "ShipmentList" = Raise e ->
                              sl = None)
     | Raise e =>
         res o = Raise e /\ http_log (post o) = (http_log st ++ [rq1])%list
     end.
Proof.
  intros Hc rq1 rq2 o. subst o. rewrite (get_all_documents_run env self sid st ti Hc).
  cbv zeta. fold rq1 rq2.
  destruct (label_of_answer env "printdocuments" rq1 _) as [label|e];
    cbn [res post fs _ti_cache events http_log add_request].
  - split_and!; try reflexivity.
    + rewrite <- app_assoc. reflexivity.
    + eexists. split_and!; try reflexivity.
      * intros e ->. reflexivity.
      * intros r e -> Hr. cbn [shipment_list_of_answer]. rewrite Hr. reflexivity.
      * intros r e -> Hr. cbn [shipment_list_of_answer]. rewrite Hr.
        destruct (raise_for_status _ r) as [[]|]; reflexivity.
  - split_and!; reflexivity.
Qed.

Lemma shipment_list_is_optional_witness :
  res (get_all_documents creating_env client "12345" cached_state)
  = Ok (list_byte_of_string "LABEL", None).
Proof.
  pose proof (shipment_list_is_optional creating_env client "12345" cached_state sample_ti
                eq_refl) as H.
  cbv zeta in H. destruct H as (_ & _ & _ & H).
  change (label_of_answer creating_env "printdocuments"
            (print_documents_request client sample_ti)
            (server creating_env (http_log cached_state)
               (print_documents_request client sample_ti)))
    with (@Ok bytes (list_byte_of_string "LABEL")) in H.
  destruct H as (_ & sl & -> & -> & _). reflexivity.
Defined.




Lemma find_document_dicts (env : Env) (doc_type : string) (rs : list json) :
  forallb is_dict rs = true ->
  find_document env doc_type rs
  = match first_document doc_type rs with
    | Some r =>
        rbind (py_b64decode env (default (JStr EmptyString) (field "content" r)))
              (fun b => Ok (Some b))
    | None => Ok None
    end.
Proof.
  unfold first_document.
  induction rs as [|r rs IH]; [reflexivity|].
  cbn [forallb]. intros [Hr Hrs]%andb_true_iff.
  destruct r as [| | | | | |kv]; try discriminate.
  cbn [find_document dict_get rbind List.find].
  change (report_type (JDict kv)) with (default JNull (assoc_get "type" kv)).
  change (field "content" (JDict kv)) with (assoc_get "content" kv).
  destruct (json_is_str (default JNull (assoc_get "type" kv)) doc_type); cbn [andb];
    [|exact (IH Hrs)].
  destruct (truthy (default (JStr EmptyString) (assoc_get "content" kv))); [reflexivity|].
  exact (IH Hrs).
Qed.

(** X12: [_extract_document_from_response] answers a reply that is
    not JSON with nothing; from a JSON object whose reports are objects it
    returns the decoded content of the first report of the requested type
    that has a content, passing over reports of that type whose content is
    missing or empty, and nothing when there is no such report or no reports
    at all. *)
Theorem extract_document_rule (env : Env) (resp : response) (doc_type : string) :
  (str_in "json" (content_type resp) = false ->
   _extract_document_from_response env resp doc_type = Ok None)
  /\ (forall kv rs,
        str_in "json" (content_type resp) = true ->
        json_body resp = Some (JDict kv) ->
        default (JList []) (assoc_get "reports" kv) = JList rs ->
        forallb is_dict rs = true ->
        _extract_document_from_response env resp doc_type
        = match first_document doc_type rs with
          | Some r =>
              rbind (py_b64decode env (default (JStr EmptyString) (field "content" r)))
                    (fun b => Ok (Some b))
          | None => Ok None
          end)
  /\ (forall kv,
        str_in "json" (content_type resp) = true ->
        json_body resp = Some (JDict kv) -> assoc_get "reports" kv = None ->
        _extract_document_from_response env resp doc_type = Ok None)
  /\ _extract_document_from_response (demo_env unreachable_server) empty_content_response
       "Label" = Ok None
  /\ _extract_document_from_response (demo_env unreachable_server) two_reports_response
       "ShipmentList" = Ok (Some (list_byte_of_string "LIST")).
Proof.
  split_and!; try reflexivity.
  - intros Hj. unfold _extract_document_from_response. rewrite Hj. reflexivity.
  - intros kv rs Hj Hbody Hrs Hdicts.
    unfold _extract_document_from_response, response_json. rewrite Hj, Hbody.
    cbn [negb rbind dict_get]. rewrite Hrs. cbn [iter rbind].
    apply find_document_dicts. exact Hdicts.
  - intros kv Hj Hbody Hrs.
    unfold _extract_document_from_response, response_json. rewrite Hj, Hbody.
    cbn [negb rbind dict_get]. rewrite Hrs. reflexivity.
Qed.

(** ** Files that cannot be processed *)

Lemma notify_post (self : ShipmentOrchestrator) (ev : event) (st : state) :
  res (_notify self ev st) = Ok tt
  /\ fs (post (_notify self ev st)) = fs st
  /\ _ti_cache (post (_notify self ev st)) = _ti_cache st
  /\ http_log (post (_notify self ev st)) = http_log st
  /\ ticks (post (_notify self ev st)) = ticks st
  /\ events (post (_notify self ev st)) = (events st ++ emitted self [ev])%list.
Proof.
  unfold _notify, emitted. destruct (on_event self) as [cb|]; run.
  - destruct (cb (events st) ev); cbn; split_and!; reflexivity.
  - cbn. rewrite app_nil_r. split_and!; reflexivity.
Qed.

Lemma parse_file_post (env : Env) (filepath : path) (st : state) :
  post (parse_file env filepath st) = st.
Proof.
  unfold parse_file. run. destruct (fs st !! filepath) as [nd|]; [|reflexivity].
  destruct (fcontent nd) as [[root|]| |]; reflexivity.
Qed.

Lemma acquire_lock_rest (env : Env) (filepath : path) (st : state) :
  _ti_cache (post (_acquire_lock env filepath st)) = _ti_cache st
  /\ http_log (post (_acquire_lock env filepath st)) = http_log st
  /\ events (post (_acquire_lock env filepath st)) = events st
  /\ forall p, p <> lock_path_of filepath ->
               fs (post (_acquire_lock env filepath st)) !! p = fs st !! p.
Proof.
  destruct (fs st !! lock_path_of filepath) as [nd|] eqn:Hl.
  - rewrite (acquire_lock_present env filepath st nd Hl).
    destruct (stale env st nd); cbn [post lock_reclaimed _ti_cache http_log events fs];
      split_and!; try reflexivity.
    intros p Hp. rewrite lookup_insert_ne by congruence.
    apply lookup_delete_ne. congruence.
  - rewrite (acquire_lock_absent env filepath st Hl).
    cbn [post lock_created set_fs _ti_cache http_log events fs]. split_and!; try reflexivity.
    intros p Hp. apply lookup_insert_ne. congruence.
Qed.



(** X14: when the file is gone by the time [process_file] holds the
    lock, the attempt to move it to the error directory fails in its turn
    and [process_file] raises FileNotFoundError instead of returning; no
    event is emitted and no request sent; the lock marker is removed all the
    same and every other file is as it was. *)
Theorem missing_file_raises (env : Env) (self : ShipmentOrchestrator) (filepath : path)
    (st : state) :
  res (_acquire_lock env filepath st) = Ok true ->
  fs (post (_acquire_lock env filepath st)) !! filepath = None ->
  let o := process_file env self filepath st in
  (exists msg, res o = Raise (Exn FileNotFoundError msg))
  /\ fs (post o) !! lock_path_of filepath = None
  /\ (forall p, p <> lock_path_of filepath -> fs (post o) !! p = fs st !! p)
  /\ events (post o) = events st
  /\ http_log (post o) = http_log st
  /\ _ti_cache (post o) = _ti_cache st.
Proof.
  intros Hacq Hfile o. subst o.
  destruct (acquire_lock_rest env filepath st) as (Hc & Hh & He & Hfs).
  unfold process_file. run.
  destruct (_acquire_lock env filepath st) as [r st1 lg1]. cbn [res post] in *. subst r.
  run. unfold process_locked, parse_file. run. rewrite Hfile. run.
  unfold _move_to_error, shutil_move, now. run. cbn [fs]. rewrite Hfile. run.
  unfold _release_lock, unlink_missing_ok. run.
  cbn [res post fs events set_fs _ti_cache http_log].
  split_and!; try assumption.
  - eexists. reflexivity.
  - apply lookup_delete_eq.
  - intros p Hp. rewrite lookup_delete_ne by congruence. apply Hfs. exact Hp.
Qed.

Lemma missing_file_raises_witness :
  (exists msg,
     res (process_file creating_env orchestrator order_file empty_state)
     = Raise (Exn FileNotFoundError msg))
  /\ fs (post (process_file creating_env orchestrator order_file empty_state))
       !! lock_path_of order_file = None
  /\ events (post (process_file creating_env orchestrator order_file empty_state)) = [].
Proof.
  assert (H : res (_acquire_lock creating_env order_file empty_state) = Ok true
              /\ fs (post (_acquire_lock creating_env order_file empty_state)) !! order_file
                 = None)
    by (split; vm_compute; reflexivity).
  destruct H as (Ha & Hf).
  destruct (missing_file_raises creating_env orchestrator order_file empty_state Ha Hf)
    as (H1 & H2 & _ & H4 & _).
  split_and!; [exact H1 | exact H2 | exact H4].
Defined.

(** ** The loop over the shipments *)

Lemma process_shipments_result (env : Env) (self : ShipmentOrchestrator)
    (ss : list Shipment) (ok : bool) (st : state) :
  exists b,
    res (process_shipments env self ss ok st) = Ok b
    /\ (b = true ->
        ok = true
        /\ Forall (fun s => exists st', res (_process_single env self s st') = Ok tt) ss).
Proof.
  revert ok st. induction ss as [|s ss IH]; intros ok st.
  - exists ok. split; [reflexivity|]. intros ->. split; [reflexivity | constructor].
  - cbn [process_shipments]. run.
    destruct (_process_single env self s st) as [[[]|e] st1 l1] eqn:Hs; run.
    + destruct (IH ok st1) as (b & Hb & Himp).
      destruct (process_shipments env self ss ok st1) as [r st2 l2]. cbn [res] in *.
      exists b. split; [exact Hb|]. intros Ht. destruct (Himp Ht) as [Hok Hall].
      split; [exact Hok|]. constructor; [|exact Hall].
      exists st. rewrite Hs. reflexivity.
    + match goal with |- context [_notify self ?ev ?s] =>
        pose proof (notify_post self ev s) as (Hn & _);
        destruct (_notify self ev s) as [rn sn ln] end.
      cbn [res] in Hn. subst rn. run.
      destruct (IH false sn) as (b & Hb & Himp).
      destruct (process_shipments env self ss false sn) as [r st2 l2]. cbn [res] in *.
      exists b. split; [exact Hb|]. intros Ht. destruct (Himp Ht) as [Hok _].
      discriminate.
Qed.

(** X15: the loop over the shipments of a file never raises, whatever
    the shipments, the carrier's answers and the consumer do; and it gives
    True only when it started from True and the processing of every shipment
    returned. *)
Theorem shipment_loop_never_raises (env : Env) (self : ShipmentOrchestrator)
    (ss : list Shipment) (ok : bool) (st : state) :
  (exists b, res (process_shipments env self ss ok st) = Ok b)
  /\ (res (process_shipments env self ss ok st) = Ok true ->
      ok = true
      /\ Forall (fun s => exists st', res (_process_single env self s st') = Ok tt) ss).
Proof.
  destruct (process_shipments_result env self ss ok st) as (b & Hb & Himp).
  split; [exists b; exact Hb|].
  intros Ht. apply Himp. congruence.
Qed.

(** X16: a shipment for the second carrier, which the parser accepts,
    is refused by [_process_single] with a ValueError before anything is
    sent or written; a file that holds such a shipment is therefore never
    processed with success. *)
Theorem unsupported_carrier_fails_file (env : Env) (self : ShipmentOrchestrator)
    (ss : list Shipment) (s : Shipment) (svc : ServiceInfo) (ok : bool) (st : state) :
  In s ss -> service s = Some svc -> carrier svc = POSTNORD ->
  (forall st',
     _process_single env self s st'
     = mkOut (Raise (Exn ValueError "Transportör 'PN' stöds inte ännu. Stödda: DHL")) st' [])
  /\ res (process_shipments env self ss ok st) = Ok false.
Proof.
  intros Hin Hsvc Hpn.
  assert (Hs : forall st',
             _process_single env self s st'
             = mkOut (Raise (Exn ValueError "Transportör 'PN' stöds inte ännu. Stödda: DHL"))
                     st' []).
  { intros st'. unfold _process_single. rewrite Hsvc, Hpn. reflexivity. }
  split; [exact Hs|].
  destruct (process_shipments_result env self ss ok st) as ([|] & Hb & Himp); [|exact Hb].
  destruct (Himp eq_refl) as [_ Hall].
  rewrite Forall_forall in Hall. apply list_elem_of_In in Hin.
  destruct (Hall s Hin) as (st' & Hok). rewrite Hs in Hok. discriminate.
Qed.

Lemma unsupported_carrier_fails_file_witness :
  res (process_shipments creating_env orchestrator [sample_shipment; zero_volume_pn_shipment]
         true empty_state) = Ok false.
Proof.
  refine (proj2 (unsupported_carrier_fails_file creating_env orchestrator
                   [sample_shipment; zero_volume_pn_shipment] zero_volume_pn_shipment
                   _ true empty_state _ eq_refl eq_refl)).
  right. left. reflexivity.
Defined.

(** ** One shipment through the chain *)


Lemma bind_raise {A B} (m : M A) (k : A -> M B) (st : state) (e : exn) :
  res (m st) = Raise e ->
  res (bind m k st) = Raise e /\ post (bind m k st) = post (m st).
Proof.
  unfold bind. destruct (m st) as [[a|e'] st1 l1]; [discriminate|].
  cbn [res post]. intros [= ->]. split; reflexivity.
Qed.

Lemma bind_step {A B} (m : M A) (k : A -> M B) (st : state) (a : A) :
  res (m st) = Ok a ->
  res (bind m k st) = res (k a (post (m st)))
  /\ post (bind m k st) = post (k a (post (m st))).
Proof.
  unfold bind. destruct (m st) as [[a'|e'] st1 l1]; [|discriminate].
  cbn [res post]. intros [= ->]. destruct (k a st1) as [r st2 l2]. split; reflexivity.
Qed.

Lemma create_shipment_keeps (env : Env) (self : DHLClient) (s : Shipment) (st : state) :
  fs (post (create_shipment env self s st)) = fs st
  /\ events (post (create_shipment env self s st)) = events st.
Proof.
  rewrite create_shipment_run.
  destruct (_build_transport_instruction self _ s) as [payload|e]; [|auto].
  cbv zeta. destruct (creation_of_answer env _ _) as [[[sid tr] ti]|e]; auto.
Qed.

Lemma get_all_documents_keeps (env : Env) (self : DHLClient) (sid : string) (st : state) :
  fs (post (get_all_documents env self sid st)) = fs st
  /\ events (post (get_all_documents env self sid st)) = events st
  /\ _ti_cache (post (get_all_documents env self sid st)) = _ti_cache st.
Proof.
  destruct (cached_ti st sid) as [ti|] eqn:Hc.
  - rewrite (get_all_documents_run env self sid st ti Hc). cbv zeta.
    destruct (label_of_answer env _ _ _); auto.
  - unfold get_all_documents. run. rewrite Hc. auto.
Qed.

Lemma request_pickup_run (env : Env) (self : DHLClient) (sid d : string) (st : state) :
  post (request_pickup env self sid d st)
  = add_request (mkRequest (base_url self ++ API_PATHS "pickup_request")
                   (JDict [ ("transportInstructionId", JStr sid); ("pickupDate", JStr d) ]))
                st.
Proof.
  unfold request_pickup, session_post. run.
  destruct (server env _ _) as [e|r]; run; [reflexivity|].
  destruct (raise_for_status _ r) as [[]|e]; run; reflexivity.
Qed.





Ltac bind_raises H :=
  match goal with
  | |- context [bind ?m ?k ?st] =>
      let Hr := fresh "Hr" in
      let Hp := fresh "Hp" in
      destruct (bind_raise m k st _ H) as (Hr & Hp); rewrite Hr, Hp; clear Hr Hp
  end.

Ltac bind_steps H :=
  match goal with
  | |- context [bind ?m ?k ?st] =>
      let Hr := fresh "Hr" in
      let Hp := fresh "Hp" in
      destruct (bind_step m k st _ H) as (Hr & Hp); rewrite Hr, Hp; clear Hr Hp
  end.

(** X18: a failure of the creation, of the document retrieval or of
    the pickup request ends the processing of the shipment with that error,
    before anything is written to disk and without an event: a pickup that
    the carrier refuses leaves a shipment that is created and whose label
    was retrieved, and no label file. *)
Theorem nothing_saved_before_pickup (env : Env) (self : ShipmentOrchestrator)
    (s : Shipment) (svc : ServiceInfo) (st : state) :
  service s = Some svc -> carrier svc = DHL ->
  let o := _process_single env self s st in
  let c := create_shipment env (dhl self) s st in
  (forall e, res c = Raise e ->
     res o = Raise e /\ fs (post o) = fs st /\ events (post o) = events st)
  /\ (forall sid tr, res c = Ok (sid, tr) ->
      let d := get_all_documents env (dhl self) sid (post c) in
      (forall e, res d = Raise e ->
         res o = Raise e /\ fs (post o) = fs st /\ events (post o) = events st)
      /\ (forall docs b e,
            res d = Ok docs -> booking svc = Some b ->
            pickup_booking b = true -> str_empty (pickup_date b) = false ->
            res (request_pickup env (dhl self) sid (pickup_date b) (post d)) = Raise e ->
            res o = Raise e /\ fs (post o) = fs st /\ events (post o) = events st
            /\ exists rq, http_log (post o) = (http_log (post d) ++ [rq])%list
                          /\ req_json rq = JDict [ ("transportInstructionId", JStr sid);
                                                   ("pickupDate", JStr (pickup_date b)) ])).
Proof.
  intros Hsvc Hcar o c. subst o c. unfold _process_single. rewrite Hsvc, Hcar.
  destruct (create_shipment_keeps env (dhl self) s st) as (Hfs1 & Hev1).
  split.
  - intros e He. bind_raises He. auto.
  - intros sid tr Hc. cbv zeta.
    bind_steps Hc. cbn [fst snd].
    set (st1 := post (create_shipment env (dhl self) s st)) in *.
    destruct (get_all_documents_keeps env (dhl self) sid st1) as (Hfs2 & Hev2 & _).
    split.
    + intros e He. bind_raises He. rewrite Hfs2, Hev2. auto.
    + intros docs b e Hd Hb Hpb Hpd Hpick.
      bind_steps Hd.
      set (st2 := post (get_all_documents env (dhl self) sid st1)) in *.
      rewrite Hb, Hpb, Hpd. cbn [negb andb].
      pose proof (request_pickup_run env (dhl self) sid (pickup_date b) st2) as Hrun.
      assert (Hstep : res ((request_pickup env (dhl self) sid (pickup_date b) ;; ret tt) st2)
                      = Raise e
                      /\ post ((request_pickup env (dhl self) sid (pickup_date b) ;; ret tt)
                                 st2)
                         = post (request_pickup env (dhl self) sid (pickup_date b) st2))
        by (apply bind_raise; exact Hpick).
      destruct Hstep as (Hs1 & Hs2).
      bind_raises Hs1. rewrite Hs2, Hrun. cbn [fs events http_log add_request].
      rewrite Hfs2, Hev2. split_and!; try assumption; try reflexivity.
      eexists. split; reflexivity.
Qed.

Lemma nothing_saved_before_pickup_witness :
  exists e,
    res (_process_single refusing_env orchestrator sample_shipment empty_state) = Raise e
    /\ fs (post (_process_single refusing_env orchestrator sample_shipment empty_state))
       = fs empty_state
    /\ events (post (_process_single refusing_env orchestrator sample_shipment empty_state))
       = events empty_state.
Proof.
  pose (bk := {| pickup_booking := true; pickup_date := "2026-02-19" |}).
  pose (err := Exn HTTPError
                 ("Server Error for url: " ++ base_url client
                  ++ "/pickuprequestapi/v1/pickuprequest/pickuprequest")).
  destruct (nothing_saved_before_pickup refusing_env orchestrator sample_shipment _
              empty_state eq_refl eq_refl) as (_ & H).
  destruct (H "2906212275" (JStr "373221512524402940") ltac:(vm_compute; reflexivity))
    as (_ & H').
  destruct (H' (list_byte_of_string "LABEL", None) bk err
              ltac:(vm_compute; reflexivity) eq_refl eq_refl eq_refl
              ltac:(vm_compute; reflexivity)) as (H1 & H2 & H3 & _).
  exists err. split_and!; [exact H1 | exact H2 | exact H3].
Defined.

(** ** Watching the inbox *)

Lemma stability_loop_ok (obs : polls) (filepath : path) (rounds i : nat) (prev : Z) :
  stability_loop obs filepath rounds i prev = Ok tt <->
  exists k sz,
    (k < rounds)%nat /\ 0 < sz /\ obs (i + k)%nat = Some sz
    /\ match k with
       | O => prev = sz
       | S k' => obs (i + k')%nat = Some sz
       end
    /\ forall j, (j < k)%nat -> obs (i + j)%nat <> None.
Proof.
  revert i prev. induction rounds as [|n IH]; intros i prev; cbn [stability_loop].
  - split; [discriminate|]. intros (k & sz & Hk & _). lia.
  - destruct (obs i) as [c|] eqn:Hobs.
    + destruct ((c =? prev) && (0 <? c)) eqn:Hcond.
      * split; [intros _|reflexivity].
        apply andb_true_iff in Hcond as [Heq%Z.eqb_eq Hpos%Z.ltb_lt].
        exists 0%nat, c. rewrite Nat.add_0_r. split_and!; try assumption; try lia.
      * rewrite IH. split.
        -- intros (k & sz & Hk & Hsz & Hat & Hprev & Hall).
           exists (S k), sz. split_and!; try lia.
           ++ rewrite <- Hat. f_equal. lia.
           ++ destruct k as [|k'].
              ** rewrite Nat.add_0_r. congruence.
              ** rewrite <- Hprev. f_equal. lia.
           ++ intros [|j] Hj.
              ** rewrite Nat.add_0_r. congruence.
              ** replace (i + S j)%nat with (S i + j)%nat by lia. apply Hall. lia.
        -- intros (k & sz & Hk & Hsz & Hat & Hprev & Hall).
           destruct k as [|k].
           { rewrite Nat.add_0_r in Hat. subst prev.
             assert (c = sz) by congruence. subst c.
             apply andb_false_iff in Hcond as [H%Z.eqb_neq | H%Z.ltb_ge]; lia. }
           exists k, sz. split_and!; try lia.
           ++ rewrite <- Hat. f_equal. lia.
           ++ destruct k as [|k'].
              ** rewrite Nat.add_0_r in Hprev. congruence.
              ** rewrite <- Hprev. f_equal. lia.
           ++ intros j Hj. replace (S i + j)%nat with (i + S j)%nat by lia. apply Hall. lia.
    + split; [discriminate|].
      intros (k & sz & Hk & Hsz & Hat & Hprev & Hall).
      destruct k as [|k].
      * rewrite Nat.add_0_r in Hat. congruence.
      * exfalso. apply (Hall 0%nat); [lia|]. rewrite Nat.add_0_r. exact Hobs.
Qed.

Lemma stability_loop_errors (obs : polls) (filepath : path) (rounds i : nat) (prev : Z)
    (e : exn) :
  stability_loop obs filepath rounds i prev = Raise e ->
  (e = vanished filepath /\ exists k, (k < rounds)%nat /\ obs (i + k)%nat = None)
  \/ (e = never_stable filepath /\ forall k, (k < rounds)%nat -> obs (i + k)%nat <> None).
Proof.
  revert i prev. induction rounds as [|n IH]; intros i prev; cbn [stability_loop].
  - intros [= <-]. right. split; [reflexivity|]. intros k Hk. lia.
  - destruct (obs i) as [c|] eqn:Hobs.
    + destruct ((c =? prev) && (0 <? c)); [discriminate|].
      intros H. destruct (IH _ _ H) as [(-> & k & Hk & Hat)|(-> & Hall)].
      * left. split; [reflexivity|]. exists (S k). split; [lia|].
        rewrite <- Hat. f_equal. lia.
      * right. split; [reflexivity|]. intros [|k] Hk.
        -- rewrite Nat.add_0_r. congruence.
        -- replace (i + S k)%nat with (S i + k)%nat by lia. apply Hall. lia.
    + intros [= <-]. left. split; [reflexivity|]. exists 0%nat. split; [lia|].
      rewrite Nat.add_0_r. exact Hobs.
Qed.

(** X19: [_wait_for_stability] returns exactly when two looks in a
    row, among the ten it takes at most, found the file with the same size,
    that size is not zero, and the file was there at every earlier look; so
    it never returns after a single look, and never for a file that stays
    empty.  Otherwise it raises: FileNotFoundError when a look it took found
    no file, the timeout error when the file was there at all ten looks. *)
Theorem wait_for_stability_rule (obs : polls) (filepath : path) :
  (_wait_for_stability obs filepath = Ok tt <->
   exists k sz,
     (k < 9)%nat /\ 0 < sz /\ obs k = Some sz /\ obs (S k) = Some sz
     /\ forall j, (j < k)%nat -> obs j <> None)
  /\ (forall e, _wait_for_stability obs filepath = Raise e ->
        (e = vanished filepath /\ exists k, (k < 10)%nat /\ obs k = None)
        \/ (e = never_stable filepath /\ forall k, (k < 10)%nat -> obs k <> None))
  /\ ((forall k, (k < 10)%nat -> obs k = Some 0) ->
      _wait_for_stability obs filepath = Raise (never_stable filepath)).
Proof.
  unfold _wait_for_stability. split_and!.
  - rewrite stability_loop_ok. split.
    + intros (k & sz & Hk & Hsz & Hat & Hprev & Hall). cbn [Nat.add] in *.
      destruct k as [|k]; [lia|].
      exists k, sz. split_and!; try assumption; try lia.
      intros j Hj. apply (Hall j). lia.
    + intros (k & sz & Hk & Hsz & H1 & H2 & Hall).
      exists (S k), sz. cbn [Nat.add]. split_and!; try assumption; try lia.
      intros j Hj. destruct (decide (j = k)) as [->|Hne]; [congruence|]. apply Hall. lia.
  - intros e He. apply stability_loop_errors in He. exact He.
  - intros Hzero.
    destruct (stability_loop obs filepath 10 0 (-1)) as [[]|e] eqn:Hrun.
    + apply stability_loop_ok in Hrun as (k & sz & Hk & Hsz & Hat & _).
      cbn [Nat.add] in Hat. rewrite (Hzero k Hk) in Hat. injection Hat as <-. lia.
    + apply stability_loop_errors in Hrun as [(-> & k & Hk & Hat)|(-> & _)];
        [|reflexivity].
      cbn [Nat.add] in Hat. rewrite (Hzero k Hk) in Hat. discriminate.
Qed.

Lemma processing_restored (processing : gset string) (nm : string) :
  nm ∉ processing -> (processing ∪ {[ nm ]}) ∖ {[ nm ]} = processing.
Proof.
  intros Hnot. apply set_eq. intros x.
  rewrite elem_of_difference, elem_of_union, elem_of_singleton. split.
  - intros [[Hx|Hx] Hne]; [exact Hx | contradiction].
  - intros Hx. split; [left; exact Hx | intros ->; contradiction].
Qed.

(** X20: [on_created] never raises and leaves the set of names in
    progress as it found it.  Events for directories, for names whose
    suffix is not .xml in any letter case, and for names already in
    progress are ignored without any effect.  For the others, when the file
    does not become stable the orchestrator is not called and one record
    is logged, a warning if the file vanished and an error otherwise; when
    it does, the file is handed to [process_file], whose exceptions are
    contained. *)
Theorem on_created_is_contained (env : Env) (orchestrator : ShipmentOrchestrator)
    (obs : polls) (processing : gset string) (event : FileSystemEvent) (st : state) :
  let filepath := src_path event in
  let o := on_created env orchestrator obs processing event st in
  let ignored :=
    is_directory event
    || negb (String.eqb (lower (suffix (name filepath))) ".xml")
    || bool_decide (name filepath ∈ processing) in
  res o = Ok processing
  /\ (ignored = true -> post o = st /\ logs o = [])
  /\ (ignored = false ->
      match _wait_for_stability obs filepath with
      | Raise e =>
          post o = st
          /\ exists msg,
               logs o = [ (if is_FileNotFoundError e then WARNING else ERROR, msg) ]
      | Ok _ => post o = post (process_file env orchestrator filepath st)
      end).
Proof.
  intros filepath o ignored. subst o ignored. unfold on_created. fold filepath.
  destruct (is_directory event); cbn [orb]; [split_and!; [reflexivity|auto|discriminate]|].
  destruct (negb (String.eqb _ ".xml")); cbn [orb];
    [split_and!; [reflexivity|auto|discriminate]|].
  destruct (bool_decide (name filepath ∈ processing)) eqn:Hin;
    [split_and!; [reflexivity|auto|discriminate]|].
  apply bool_decide_eq_false in Hin.
  rewrite (processing_restored processing (name filepath) Hin).
  run. destruct (_wait_for_stability obs filepath) as [[]|e].
  - destruct (process_file env orchestrator filepath st) as [[b|e] st1 l1]; run.
    + split_and!; [reflexivity | discriminate | reflexivity].
    + destruct (is_FileNotFoundError e); run;
        (split_and!; [reflexivity | discriminate | reflexivity]).
  - destruct (is_FileNotFoundError e); run;
      (split_and!; [reflexivity | discriminate |]); intros _; split; try reflexivity;
      eexists; reflexivity.
Qed.

Lemma process_existing_files_ok (env : Env) (orchestrator : ShipmentOrchestrator)
    (existing : list path) (st : state) :
  res (process_existing_files env orchestrator existing st) = Ok tt.
Proof.
  revert st. induction existing as [|fp rest IH]; intros st; [reflexivity|].
  cbn [process_existing_files]. run.
  destruct (process_file env orchestrator fp st) as [[b|e] st1 l1]; run.
  - specialize (IH st1). destruct (process_existing_files env orchestrator rest st1).
    exact IH.
  - specialize (IH st1). destruct (process_existing_files env orchestrator rest st1).
    exact IH.
Qed.

(** X21: [process_existing_files] never raises: an exception of
    [process_file] for one file is logged and the files after it are
    processed all the same, each in the state its predecessors left. *)
Theorem existing_files_are_all_attempted (env : Env) (orchestrator : ShipmentOrchestrator)
    (before after : list path) (st : state) :
  res (process_existing_files env orchestrator (before ++ after)%list st) = Ok tt
  /\ post (process_existing_files env orchestrator (before ++ after)%list st)
     = post (process_existing_files env orchestrator after
               (post (process_existing_files env orchestrator before st)))
  /\ forall fp,
       post (process_existing_files env orchestrator [fp] st)
       = post (process_file env orchestrator fp st).
Proof.
  split; [apply process_existing_files_ok|]. split.
  - revert st. induction before as [|fp rest IH]; intros st; [reflexivity|].
    cbn [app process_existing_files]. run.
    destruct (process_file env orchestrator fp st) as [[b|e] st1 l1]; run.
    + specialize (IH st1).
      destruct (process_existing_files env orchestrator (rest ++ after)%list st1).
      destruct (process_existing_files env orchestrator rest st1). exact IH.
    + specialize (IH st1).
      destruct (process_existing_files env orchestrator (rest ++ after)%list st1).
      destruct (process_existing_files env orchestrator rest st1). exact IH.
  - intros fp. cbn [process_existing_files]. run.
    destruct (process_file env orchestrator fp st) as [[b|e] st1 l1]; run; reflexivity.
Qed.

(** ** Booking with the second carrier *)

(** X22: [PostNordClient.create_shipment] sends the booking payload in
    one request and touches neither files, cache nor events.  On an
    accepted answer it reads identifier, tracking number and label from the
    first item of the first shipment; an answer without shipments, or whose
    first shipment has no items, is not an error: it gives an empty tracking
    number and an empty label, and so does an item without label data. *)
Theorem postnord_creation_rule (env : Env) (self : PostNordClient) (s : Shipment)
    (st : state) (payload : json) (r : response) (kv : list (string * json)) :
  _build_booking_payload self s "pdf" = Ok payload ->
  server env (http_log st) (mkRequest (booking_url self) payload) = Reply r ->
  raise_for_status (booking_url self) r = Ok tt ->
  json_body r = Some (JDict kv) ->
  let o := PostNord.create_shipment env self s st in
  let shipments := default (JList [JDict []]) (assoc_get "shipments" kv) in
  post o = add_request (mkRequest (booking_url self) payload) st
  /\ (truthy shipments = false ->
      res o = Ok (JStr EmptyString, JStr EmptyString, [], "pdf"))
  /\ (assoc_get "shipments" kv = None ->
      res o = Ok (JStr EmptyString, JStr EmptyString, [], "pdf"))
  /\ (forall skv rest, shipments = JList (JDict skv :: rest) ->
        let sid := default (JStr EmptyString) (assoc_get "shipmentId" skv) in
        let items := default (JList []) (assoc_get "items" skv) in
        (truthy items = false -> res o = Ok (sid, JStr EmptyString, [], "pdf"))
        /\ (forall ikv more, items = JList (JDict ikv :: more) ->
              let tracking := default (JStr EmptyString) (assoc_get "itemId" ikv) in
              let label := default (JStr EmptyString) (assoc_get "labelData" ikv) in
              (truthy label = false -> res o = Ok (sid, tracking, [], "pdf"))
              /\ (truthy label = true ->
                  res o = match py_b64decode env label with
                          | Ok b => Ok (sid, tracking, b, "pdf")
                          | Raise e => Raise e
                          end))).
Proof.
  intros Hb Hs Hst Hj o shipments. subst o.
  unfold PostNord.create_shipment, session_post. fold (booking_url self).
  run. rewrite Hb. run. rewrite Hs. run. rewrite Hst. run.
  unfold response_json. rewrite Hj. run. cbn [dict_get]. run. fold shipments.
  split_and!.
  - destruct (truthy shipments); run.
    + destruct (index0 shipments) as [fst_sh|e]; run; [|reflexivity].
      destruct (dict_get fst_sh "items" (JList [])) as [items|e]; run; [|reflexivity].
      destruct (truthy items); run.
      * destruct (index0 items) as [item|e]; run; [|reflexivity].
        destruct (dict_get item "itemId" (JStr EmptyString)) as [tr|e]; run; [|reflexivity].
        destruct (dict_get item "labelData" (JStr EmptyString)) as [lb|e]; run;
          [|reflexivity].
        destruct (truthy lb); run.
        -- destruct (py_b64decode env lb) as [b|e]; run; [|reflexivity].
           destruct (dict_get fst_sh "shipmentId" (JStr EmptyString)); reflexivity.
        -- destruct (dict_get fst_sh "shipmentId" (JStr EmptyString)); reflexivity.
      * destruct (dict_get fst_sh "shipmentId" (JStr EmptyString)); reflexivity.
    + reflexivity.
  - intros ->. reflexivity.
  - intros Hnone. subst shipments. rewrite Hnone. reflexivity.
  - intros skv rest ->. cbn [truthy index0]. run. cbn [dict_get]. run. split.
    + intros ->. run. reflexivity.
    + intros ikv more ->. cbn [truthy index0]. run. cbn [dict_get]. run. split.
      * intros ->. run. reflexivity.
      * intros ->. run. destruct (py_b64decode env _) as [b|e]; run; reflexivity.
Qed.

Lemma postnord_creation_rule_witness :
  res (PostNord.create_shipment empty_answer_env pn_client pn_shipment empty_state)
  = Ok (JStr EmptyString, JStr EmptyString, [], "pdf").
Proof.
  refine (proj1 (proj2 (proj2 (postnord_creation_rule empty_answer_env pn_client pn_shipment
                                 empty_state pn_payload (json_response "{}" (JDict [])) []
                                 _ _ _ _))) _);
    reflexivity.
Defined.

(** ** From the export to the creation payload *)

(** X23: every shipment the parser returns has a service, the
    default one (DHL with an empty product code) when its element has no
    service element; the parser accepts a shipment without any receiver,
    and for such a shipment the creation payload cannot be built: the
    builder raises AttributeError.  With a receiver the payload is built,
    and it carries the receiver's postal code cleaned of its country
    prefix. *)
Theorem parsed_shipment_needs_receiver (env : Env) (self : DHLClient) (today : string)
    (root : Element) (ss : list Shipment) :
  parse_root env root = Ok ss ->
  Forall2
    (fun e s =>
       is_Some (service s)
       /\ (find "service" e = None -> service s = Some ServiceInfo_default)
       /\ match resolved_receiver root e with
          | Some r =>
              exists p,
                _build_transport_instruction self today s = Ok p
                /\ consignee_postal_code p = Some (JStr (clean_postal_code (zipcode r)))
          | None =>
              _build_transport_instruction self today s = Raise (no_attribute "zipcode")
          end)
    (findall "shipment" root) ss.
Proof.
  intros Hparse.
  assert (H : Forall2 (fun e s => _parse_shipment env e (resolved_receiver root e) = Ok s)
                (findall "shipment" root) ss).
  { apply rmap_ok. exact Hparse. }
  eapply Forall2_impl; [exact H|]. intros e s Hs. cbv beta in Hs.
  destruct (parse_shipment_ok env root e s Hs) as (_ & (svc & Hsvc & Hservice) & Hr & _).
  split_and!.
  - rewrite Hservice. eauto.
  - intros Hnone. rewrite Hnone in Hsvc. cbn in Hsvc. congruence.
  - unfold _build_transport_instruction. rewrite Hservice, Hr.
    destruct (resolved_receiver root e) as [r|]; [|reflexivity].
    eexists. split; reflexivity.
Qed.

Lemma parsed_shipment_needs_receiver_witness :
  Forall2
    (fun e s =>
       is_Some (service s)
       /\ (find "service" e = None -> service s = Some ServiceInfo_default)
       /\ match resolved_receiver two_shipments e with
          | Some r =>
              exists p,
                _build_transport_instruction client "2026-02-19" s = Ok p
                /\ consignee_postal_code p = Some (JStr (clean_postal_code (zipcode r)))
          | None =>
              _build_transport_instruction client "2026-02-19" s
              = Raise (no_attribute "zipcode")
          end)
    (findall "shipment" two_shipments) two_parsed.
Proof.
  apply (parsed_shipment_needs_receiver failing_env client "2026-02-19" two_shipments
           two_parsed).
  vm_compute. reflexivity.
Defined.

(** ** The response cache *)

Lemma cache_kept_refl (st : state) : cache_kept st st.
Proof. intros k Hk. exact Hk. Qed.

Lemma cache_kept_trans (a b c : state) :
  cache_kept a b -> cache_kept b c -> cache_kept a c.
Proof. intros Hab Hbc k Hk. apply Hbc, Hab, Hk. Qed.

Lemma cache_kept_same (st st' : state) : _ti_cache st' = _ti_cache st -> cache_kept st st'.
Proof. intros H k Hk. rewrite H. exact Hk. Qed.

Lemma Keeps_same {A} (m : M A) :
  (forall st, _ti_cache (post (m st)) = _ti_cache st) -> Keeps m.
Proof. intros H st. apply cache_kept_same, H. Qed.

Lemma Keeps_bind {A B} (m : M A) (k : A -> M B) :
  Keeps m -> (forall a, Keeps (k a)) -> Keeps (bind m k).
Proof.
  intros Hm Hk st. unfold bind. specialize (Hm st).
  destruct (m st) as [[a|e] s1 l1]; cbn [post] in *; [|exact Hm].
  specialize (Hk a s1). destruct (k a s1) as [r s2 l2]. cbn [post] in *.
  eapply cache_kept_trans; eassumption.
Qed.

Lemma Keeps_try_except {A} (m : M A) (h : exn -> M A) :
  Keeps m -> (forall e, Keeps (h e)) -> Keeps (try_except m h).
Proof.
  intros Hm Hh st. unfold try_except. specialize (Hm st).
  destruct (m st) as [[a|e] s1 l1]; cbn [post] in *; [exact Hm|].
  specialize (Hh e s1). destruct (h e s1) as [r s2 l2]. cbn [post] in *.
  eapply cache_kept_trans; eassumption.
Qed.

Lemma Keeps_try_finally {A} (m : M A) (f : M unit) :
  Keeps m -> Keeps f -> Keeps (try_finally m f).
Proof.
  intros Hm Hf st. unfold try_finally. specialize (Hm st).
  destruct (m st) as [r s1 l1]. cbn [post] in *.
  specialize (Hf s1). destruct (f s1) as [[u|e] s2 l2]; cbn [post] in *;
    eapply cache_kept_trans; eassumption.
Qed.

Lemma Keeps_ret {A} (a : A) : Keeps (ret a).
Proof. intros st. apply cache_kept_refl. Qed.

Lemma Keeps_raise {A} (e : exn) : Keeps (@raise A e).
Proof. intros st. apply cache_kept_refl. Qed.

Lemma Keeps_lift {A} (r : result A) : Keeps (lift r).
Proof. intros st. apply cache_kept_refl. Qed.

Lemma Keeps_log lv msg : Keeps (log lv msg).
Proof. intros st. apply cache_kept_refl. Qed.

Lemma Keeps_now env : Keeps (now env).
Proof. apply Keeps_same. reflexivity. Qed.

Lemma Keeps_write_file env p d : Keeps (write_file env p d).
Proof. apply Keeps_same. reflexivity. Qed.

Lemma Keeps_shutil_move src dst : Keeps (shutil_move src dst).
Proof.
  apply Keeps_same. intros st. unfold shutil_move. run.
  destruct (fs st !! src); reflexivity.
Qed.

Lemma Keeps_notify self ev : Keeps (_notify self ev).
Proof. apply Keeps_same. intros st. apply (notify_post self ev st). Qed.

Lemma Keeps_create_shipment env self s : Keeps (create_shipment env self s).
Proof.
  intros st k Hk. rewrite create_shipment_run.
  destruct (_build_transport_instruction self _ s) as [payload|e]; [|exact Hk].
  cbv zeta. destruct (creation_of_answer env _ _) as [[[sid tr] ti]|e]; [|exact Hk].
  cbn [post _ti_cache set_cache].
  destruct (decide (sid = k)) as [->|Hne].
  - rewrite lookup_insert_eq. eauto.
  - rewrite lookup_insert_ne by exact Hne. exact Hk.
Qed.

Lemma Keeps_get_all_documents env self sid : Keeps (get_all_documents env self sid).
Proof. apply Keeps_same. intros st. apply (get_all_documents_keeps env self sid st). Qed.

Lemma Keeps_request_pickup env self sid d : Keeps (request_pickup env self sid d).
Proof. apply Keeps_same. intros st. rewrite request_pickup_run. reflexivity. Qed.

Ltac keeps_step :=
  first
    [ apply Keeps_ret | apply Keeps_raise | apply Keeps_lift | apply Keeps_log
    | apply Keeps_now | apply Keeps_write_file | apply Keeps_shutil_move
    | apply Keeps_notify | apply Keeps_create_shipment | apply Keeps_get_all_documents
    | apply Keeps_request_pickup
    | apply Keeps_bind; [|intros ?]
    | apply Keeps_try_except; [|intros ?]
    | match goal with
      | |- Keeps (match ?x with _ => _ end) => destruct x
      | |- Keeps (if ?x then _ else _) => destruct x
      end ].

Lemma Keeps_process_single env self s : Keeps (_process_single env self s).
Proof. unfold _process_single. repeat keeps_step. Qed.

Lemma Keeps_process_shipments env self ss ok : Keeps (process_shipments env self ss ok).
Proof.
  revert ok. induction ss as [|s ss IH]; intros ok; cbn [process_shipments].
  - apply Keeps_ret.
  - apply Keeps_bind; [|intros ?; apply IH].
    apply Keeps_try_except; [|intros ?]; repeat keeps_step.
    apply Keeps_process_single.
Qed.

Lemma Keeps_process_locked env self filepath : Keeps (process_locked env self filepath).
Proof.
  unfold process_locked. apply Keeps_try_finally.
  - apply Keeps_try_except; [|intros e].
    + apply Keeps_bind; [apply Keeps_same; intros st; rewrite parse_file_post; reflexivity|].
      intros ss. apply Keeps_bind; [apply Keeps_process_shipments|]. intros ok.
      unfold _move_to_done, _move_to_error. repeat keeps_step.
    + unfold _move_to_error. repeat keeps_step.
  - apply Keeps_same. reflexivity.
Qed.

(** X24: the cache of creation responses only grows: an identifier
    that is cached when [process_file] starts is still cached when it ends,
    whatever happens to the file; nothing in the processing of a file ever
    removes an entry. *)
Theorem cache_is_never_evicted (env : Env) (self : ShipmentOrchestrator) (filepath : path)
    (st : state) (k : string) :
  is_Some (_ti_cache st !! k) ->
  is_Some (_ti_cache (post (process_file env self filepath st)) !! k).
Proof.
  revert k. change (cache_kept st (post (process_file env self filepath st))).
  revert st. change (Keeps (process_file env self filepath)).
  unfold process_file. apply Keeps_bind.
  - apply Keeps_same. intros st. apply (acquire_lock_rest env filepath st).
  - intros locked. destruct locked; [apply Keeps_process_locked|]. repeat keeps_step.
Qed.

Lemma cache_is_never_evicted_witness :
  is_Some (_ti_cache (post (process_file creating_env orchestrator order_file cached_inbox))
             !! "12345").
Proof.
  apply (cache_is_never_evicted creating_env orchestrator order_file cached_inbox "12345").
  exists sample_ti. reflexivity.
Defined.
